(** * Javari Video Analysis: task routing, upload validation and dispatch

    A shallow embedding of the logic of [src/App.jsx].  The file holds three
    successive builds of the component; the first one (the build with
    [API_ROUTING], lines 1-1190) is embedded in full in module [App], and the
    parts of the second and third build that differ (the analyze button of
    the second, [handleFile] of the third) in modules [Build2] and [Build3].

    Conventions of the embedding:
    - a JS string is its list of UTF-16 code units ([list N]); [js "..."]
      writes an ASCII literal;
    - an object literal used as a table ([API_CONFIG], [ANALYSIS_TASKS],
      [API_ROUTING]) is a [gmap] from its own keys, built from the entries in
      source order.  A read [table !! key] stands for [table[key]] at the own
      keys and at the keys that name nothing at all, where it yields [None]
      ([undefined]).  At a name inherited from [Object.prototype]
      ([Object_prototype_keys]: [constructor], [toString], ...) the JS read
      yields the inherited member, which the [gmap] does not hold.  The
      reads of a provider's [name] go through [name_at], which knows the
      inherited members; the reads of a task and of its routing in the first
      build ([lookupTask], [apiToUse]) do not, and the statements that take
      an arbitrary task key assume [inherited key = false];
    - React state is the record [Session], one field per [useState], with the
      setters of the source; the browser (object URLs, clock, provider calls)
      is the record [World];
    - evaluation that may throw is in the [Outcome] monad. *)

From Stdlib Require Import String Ascii NArith QArith Decimal DecimalString.
From stdpp Require Import gmap list fin_maps.

Local Open Scope N_scope.

(** ** JS strings *)

Abbreviation JsString := (list N).

Definition js (s : string) : JsString := N_of_ascii <$> list_ascii_of_string s.

(** The double quote character, U+0022. *)
Definition dquote : JsString := [34].

(** [s.startsWith(p)] *)
Fixpoint startsWith (p s : JsString) : bool :=
  match p, s with
  | [], _ => true
  | _ :: _, [] => false
  | a :: p', b :: s' => (a =? b) && startsWith p' s'
  end.

(** ECMAScript WhiteSpace and LineTerminator code points, the characters
    [String.prototype.trim] strips. *)
Definition isWhiteSpace (c : N) : bool :=
  (c =? 9) || (c =? 10) || (c =? 11) || (c =? 12) || (c =? 13) || (c =? 32)
  || (c =? 160) || (c =? 5760) || ((8192 <=? c) && (c <=? 8202))
  || (c =? 8232) || (c =? 8233) || (c =? 8239) || (c =? 8287)
  || (c =? 12288) || (c =? 65279).

Fixpoint trimStart (s : JsString) : JsString :=
  match s with
  | [] => []
  | c :: s' => if isWhiteSpace c then trimStart s' else s
  end.

Definition trimEnd (s : JsString) : JsString := rev (trimStart (rev s)).

(** [s.trim()] *)
Definition trim (s : JsString) : JsString := trimEnd (trimStart s).

(** Truthiness of a string value: only the empty string is falsy. *)
Definition truthy (s : JsString) : bool :=
  match s with [] => false | _ :: _ => true end.

(** Truthiness of a string-or-null state variable. *)
Definition truthy_opt (o : option JsString) : bool :=
  match o with None => false | Some s => truthy s end.

(** [n.toString()] for a non-negative integer below 10^21: its decimal
    digits. *)
Definition numberToString (n : N) : JsString :=
  js (NilZero.string_of_uint (N.to_uint n)).

(** [s.padStart(target, c)] for a one-character filler [c]. *)
Definition padStart (target : nat) (fill : N) (s : JsString) : JsString :=
  replicate (target - length s) fill ++ s.

(** [x.toFixed(digits)] for the non-negative number [x = num / den], when
    that quotient is exact in double precision (as is every integer below
    2^53 divided by a power of two).  [toFixed] takes the integer [n] that
    makes [n / 10^digits] nearest to [x], the larger one on a tie, and
    prints it with the point [digits] places from the right. *)
Definition toFixed (digits : nat) (num den : N) : JsString :=
  let scale := 10 ^ N.of_nat digits in
  let n := (2 * scale * num + den) / (2 * den) in
  numberToString (n / scale)
  ++ match digits with
     | O => []
     | S _ => js "." ++ padStart digits 48 (numberToString (n mod scale))
     end.

(** ** Values that may throw *)

(** A thrown [Error] object, seen through its [message]. *)
Record JsError := { message : JsString }.

Inductive Outcome (A : Type) : Type :=
| Returns (a : A)
| Throws (e : JsError).
Arguments Returns {A} a.
Arguments Throws {A} e.

Definition obind {A B} (m : Outcome A) (k : A -> Outcome B) : Outcome B :=
  match m with
  | Returns a => k a
  | Throws e => Throws e
  end.

Notation "'let!' x ':=' m 'in' k" := (obind m (fun x => k))
  (at level 10, x name, m at level 100, k at level 200).

(** Reading property [prop] of [undefined]: the runtime throws a
    [TypeError]; the message is the one V8 gives. *)
Definition TypeError_undefined (prop : string) : JsError :=
  {| message := js "Cannot read properties of undefined (reading '"
                ++ js prop ++ js "')" |}.

(** [base[prop]] where [base] may be [undefined]. *)
Definition read {A B} (base : option A) (prop : string) (get : A -> B) : Outcome B :=
  match base with
  | Some a => Returns (get a)
  | None => Throws (TypeError_undefined prop)
  end.

(** The property names every object literal inherits from
    [Object.prototype]. *)
Definition Object_prototype_keys : list JsString :=
  [ js "constructor"; js "hasOwnProperty"; js "isPrototypeOf";
    js "propertyIsEnumerable"; js "toLocaleString"; js "toString";
    js "valueOf"; js "__proto__"; js "__defineGetter__";
    js "__defineSetter__"; js "__lookupGetter__"; js "__lookupSetter__" ].

(** [key] names a member inherited from [Object.prototype]. *)
Definition inherited (key : JsString) : bool :=
  bool_decide (key ∈ Object_prototype_keys).

(** The [name] of the member of [Object.prototype] called [key]: a function
    is named after its key, [constructor] is the function [Object], and
    [__proto__] is the prototype object itself, which has no [name]. *)
Definition member_name (key : JsString) : option JsString :=
  if decide (key = js "__proto__") then None
  else if decide (key = js "constructor") then Some (js "Object")
  else Some key.

(** What a template literal prints for [table[key].name], for a table whose
    entries have a [name]: the entry's, the inherited member's (the text
    [undefined] when it has none), or a throw when [table[key]] is
    [undefined]. *)
Definition name_at {A} (table : gmap JsString A) (get : A -> JsString)
    (key : JsString) : Outcome JsString :=
  match table !! key with
  | Some entry => Returns (get entry)
  | None =>
      if inherited key then Returns (default (js "undefined") (member_name key))
      else Throws (TypeError_undefined "name")
  end.

(** ** Files *)

(** A browser [File]: the three properties the component reads. *)
Record File := { name : JsString; type : JsString; size : N }.

(** ** The browser

    [objectURLs] are the blob URLs currently registered, each named by the
    number it was created with; [revocations] records every call of
    [URL.revokeObjectURL]; [clock] is the wall clock in milliseconds;
    [invoked] lists the provider calls issued so far, by provider id. *)
Record World := {
  objectURLs : gset nat;
  nextURL : nat;
  revocations : list nat;
  clock : N;
  invoked : list JsString
}.

(** [URL.createObjectURL(file)]: registers and returns a fresh URL. *)
Definition createObjectURL (w : World) : nat * World :=
  (nextURL w,
   {| objectURLs := {[ nextURL w ]} ∪ objectURLs w;
      nextURL := S (nextURL w);
      revocations := revocations w;
      clock := clock w;
      invoked := invoked w |}).

(** [URL.revokeObjectURL(url)]: releases a URL. *)
Definition revokeObjectURL (url : nat) (w : World) : World :=
  {| objectURLs := objectURLs w ∖ {[ url ]};
     nextURL := nextURL w;
     revocations := revocations w ++ [url];
     clock := clock w;
     invoked := invoked w |}.

(** A provider call is issued. *)
Definition invoke (api : JsString) (w : World) : World :=
  {| objectURLs := objectURLs w;
     nextURL := nextURL w;
     revocations := revocations w;
     clock := clock w;
     invoked := invoked w ++ [api] |}.

(** Time passes. *)
Definition advance (ms : N) (w : World) : World :=
  {| objectURLs := objectURLs w;
     nextURL := nextURL w;
     revocations := revocations w;
     clock := clock w + ms;
     invoked := invoked w |}.

(** [new Date().toISOString()]: the ISO-8601 text of an instant, kept as the
    instant it denotes. *)
Inductive Timestamp := toISOString (ms : N).

(** How often a URL has been released. *)
Definition released (url : nat) (w : World) : nat :=
  length (filter (λ u, u = url) (revocations w)).

(** ** Upload verdicts *)

Inductive Reason := WrongType | TooLarge.

Inductive Verdict := Ok | Rejected (r : Reason).

(** ** Static configuration (module [App]: the first build) *)

Module App.

(** An entry of [API_CONFIG] (lines 26-75); the icon component and the CSS
    gradient are presentation only and left out. *)
Record ApiConfig := {
  api_name : JsString;
  api_description : JsString;
  capabilities : list JsString;
  freeLimit : JsString;
  maxVideoSize : JsString;
  maxDuration : JsString;
  bestFor : JsString;
  api_color : JsString
}.

Definition API_CONFIG_entries : list (JsString * ApiConfig) :=
  [ (js "gemini",
     {| api_name := js "Google Gemini 2.0";
        api_description := js "Native video understanding with 1M token context";
        capabilities := [js "Video Q&A"; js "Damage Analysis"; js "Content Summary"; js "Scene Description"];
        freeLimit := js "1,500 requests/day";
        maxVideoSize := js "100MB";
        maxDuration := js "1 hour";
        bestFor := js "General video understanding, property inspection, Q&A";
        api_color := js "#4285F4" |});
    (js "twelveLabs",
     {| api_name := js "Twelve Labs";
        api_description := js "Semantic video search and timestamp finding";
        capabilities := [js "Semantic Search"; js "Timestamp Finding"; js "Video Indexing"; js "Highlight Detection"];
        freeLimit := js "600 minutes lifetime";
        maxVideoSize := js "2GB";
        maxDuration := js "2 hours";
        bestFor := js "Finding specific moments, semantic search, video indexing";
        api_color := js "#FF6B6B" |});
    (js "googleVideoIntelligence",
     {| api_name := js "Google Cloud Video Intelligence";
        api_description := js "Object detection and label analysis";
        capabilities := [js "Object Detection"; js "Label Detection"; js "Scene Change"; js "Shot Detection"];
        freeLimit := js "1,000 minutes/month";
        maxVideoSize := js "100MB";
        maxDuration := js "2 hours";
        bestFor := js "Object tracking, label detection, scene analysis";
        api_color := js "#34A853" |});
    (js "roboflow",
     {| api_name := js "Roboflow";
        api_description := js "Custom AI detection models";
        capabilities := [js "Custom Detection"; js "Damage Detection"; js "Defect Analysis"; js "Object Segmentation"];
        freeLimit := js "1,000 API calls/month";
        maxVideoSize := js "100MB";
        maxDuration := js "30 minutes";
        bestFor := js "Custom damage detection, specialized models, defect analysis";
        api_color := js "#6366F1" |}) ].

Definition API_CONFIG : gmap JsString ApiConfig := list_to_map API_CONFIG_entries.

(** An entry of [ANALYSIS_TASKS] (lines 77-304).  [prompts] keeps the keys of
    the prompt table; the template texts are read nowhere in the component. *)
Record Task := {
  id : JsString;
  task_name : JsString;
  task_description : JsString;
  task_color : JsString;
  primaryAPI : JsString;
  fallbackAPI : JsString;
  creditCost : N;
  prompts : list JsString
}.

Definition ANALYSIS_TASKS_entries : list (JsString * Task) :=
  [ (js "property_damage",
     {| id := js "property_damage";
        task_name := js "Property Damage Inspection";
        task_description := js "Analyze roof, siding, or structural damage from drone/camera footage";
        task_color := js "#EF4444";
        primaryAPI := js "gemini";
        fallbackAPI := js "roboflow";
        creditCost := 5;
        prompts := [js "gemini"] |});
    (js "vehicle_damage",
     {| id := js "vehicle_damage";
        task_name := js "Vehicle Damage Assessment";
        task_description := js "Detect dents, scratches, and damage on vehicles";
        task_color := js "#F59E0B";
        primaryAPI := js "roboflow";
        fallbackAPI := js "gemini";
        creditCost := 4;
        prompts := [js "gemini"] |});
    (js "content_search",
     {| id := js "content_search";
        task_name := js "Content Search & Moments";
        task_description := js "Find specific moments, objects, or actions within videos";
        task_color := js "#8B5CF6";
        primaryAPI := js "gemini";
        fallbackAPI := js "twelveLabs";
        creditCost := 3;
        prompts := [js "gemini"] |});
    (js "object_tracking",
     {| id := js "object_tracking";
        task_name := js "Object Detection & Tracking";
        task_description := js "Track and identify objects, people, or vehicles across video";
        task_color := js "#10B981";
        primaryAPI := js "googleVideoIntelligence";
        fallbackAPI := js "gemini";
        creditCost := 4;
        prompts := [js "gemini"] |});
    (js "content_summary",
     {| id := js "content_summary";
        task_name := js "Video Summary & Analysis";
        task_description := js "Generate comprehensive summary with key moments and insights";
        task_color := js "#06B6D4";
        primaryAPI := js "gemini";
        fallbackAPI := js "twelveLabs";
        creditCost := 2;
        prompts := [js "gemini"] |});
    (js "custom_query",
     {| id := js "custom_query";
        task_name := js "Custom Video Query";
        task_description := js "Ask any question about your video content";
        task_color := js "#EC4899";
        primaryAPI := js "gemini";
        fallbackAPI := js "twelveLabs";
        creditCost := 3;
        prompts := [] |}) ].

Definition ANALYSIS_TASKS : gmap JsString Task := list_to_map ANALYSIS_TASKS_entries.

(** An entry of [API_ROUTING] (lines 307-314). *)
Record Routing := { primary : JsString; fallback : JsString }.

Definition API_ROUTING_entries : list (JsString * Routing) :=
  [ (js "property_damage", {| primary := js "gemini"; fallback := js "roboflow" |});
    (js "vehicle_damage", {| primary := js "roboflow"; fallback := js "gemini" |});
    (js "content_search", {| primary := js "gemini"; fallback := js "twelveLabs" |});
    (js "object_tracking", {| primary := js "googleVideoIntelligence"; fallback := js "gemini" |});
    (js "content_summary", {| primary := js "gemini"; fallback := js "twelveLabs" |});
    (js "custom_query", {| primary := js "gemini"; fallback := js "twelveLabs" |}) ].

Definition API_ROUTING : gmap JsString Routing := list_to_map API_ROUTING_entries.

(** Line 430: [selectedAPI === 'auto' ? routing.primary : selectedAPI], with
    [routing = API_ROUTING[selectedTask]] of line 429.  [routing.primary] is
    evaluated only on the ['auto'] branch.  (For a [selectedTask] that is a
    name inherited from [Object.prototype] the JS read of line 429 yields
    the inherited member, outside this definition: see [inherited].) *)
Definition apiToUse (selectedTask selectedAPI : JsString) : Outcome JsString :=
  let routing := API_ROUTING !! selectedTask in
  if decide (selectedAPI = js "auto")
  then read routing "primary" primary
  else Returns selectedAPI.

(** ** Analysis payloads (the object literals of [simulateAPICall]) *)

Record DamageItem := {
  item_id : N;
  location : JsString;
  damage_type : JsString;
  severity : JsString;
  item_timestamp : JsString;
  item_description : JsString;
  recommendation : JsString
}.

Record Condition := { score : Q; label : JsString; condition_description : JsString }.

Record Recommendations := {
  immediate : list JsString;
  shortTerm : list JsString;
  longTerm : list JsString
}.

Record Moment := { time : JsString; event : JsString }.

Inductive Payload :=
| DamageReport (summary : JsString) (overallCondition : Condition)
    (damageItems : list DamageItem) (positiveObservations : list JsString)
    (recommendations : Recommendations) (confidence : Q)
| CustomAnswer (summary answer : JsString) (confidence : Q)
    (relatedTimestamps : list JsString)
| GenericFindings (summary : JsString) (keyFindings : list JsString)
    (timestamps : list Moment) (confidence : Q).

(** [result.damageItems]; absent in the other payload shapes. *)
Definition damageItems_of (p : Payload) : option (list DamageItem) :=
  match p with
  | DamageReport _ _ items _ _ _ => Some items
  | _ => None
  end.

(** The object stored by [setAnalysisResult] (lines 439-447). *)
Record AnalysisResult := {
  task : JsString;
  api : JsString;
  timestamp : Timestamp;
  videoName : JsString;
  resultDuration : option Q;
  videoSize : N;
  data : Payload
}.

(** ** Component state: one field per [useState] (lines 322-333) *)

Record Session := {
  currentPage : JsString;
  selectedTask : option JsString;
  videoFile : option File;
  videoPreview : option nat;
  videoDuration : option Q;
  customQuery : JsString;
  isAnalyzing : bool;
  analysisResult : option AnalysisResult;
  selectedAPI : JsString;
  error : option JsString;
  analysisProgress : Q;
  showAPIInfo : bool
}.

Definition initial : Session :=
  {| currentPage := js "home"; selectedTask := None; videoFile := None;
     videoPreview := None; videoDuration := None; customQuery := [];
     isAnalyzing := false; analysisResult := None; selectedAPI := js "auto";
     error := None; analysisProgress := 0%Q; showAPIInfo := false |}.

Definition setSelectedTask (v : option JsString) (s : Session) : Session :=
  {| currentPage := currentPage s; selectedTask := v; videoFile := videoFile s;
     videoPreview := videoPreview s; videoDuration := videoDuration s;
     customQuery := customQuery s; isAnalyzing := isAnalyzing s;
     analysisResult := analysisResult s; selectedAPI := selectedAPI s;
     error := error s; analysisProgress := analysisProgress s;
     showAPIInfo := showAPIInfo s |}.

Definition setVideoFile (v : option File) (s : Session) : Session :=
  {| currentPage := currentPage s; selectedTask := selectedTask s; videoFile := v;
     videoPreview := videoPreview s; videoDuration := videoDuration s;
     customQuery := customQuery s; isAnalyzing := isAnalyzing s;
     analysisResult := analysisResult s; selectedAPI := selectedAPI s;
     error := error s; analysisProgress := analysisProgress s;
     showAPIInfo := showAPIInfo s |}.

Definition setVideoPreview (v : option nat) (s : Session) : Session :=
  {| currentPage := currentPage s; selectedTask := selectedTask s;
     videoFile := videoFile s; videoPreview := v; videoDuration := videoDuration s;
     customQuery := customQuery s; isAnalyzing := isAnalyzing s;
     analysisResult := analysisResult s; selectedAPI := selectedAPI s;
     error := error s; analysisProgress := analysisProgress s;
     showAPIInfo := showAPIInfo s |}.

Definition setVideoDuration (v : option Q) (s : Session) : Session :=
  {| currentPage := currentPage s; selectedTask := selectedTask s;
     videoFile := videoFile s; videoPreview := videoPreview s; videoDuration := v;
     customQuery := customQuery s; isAnalyzing := isAnalyzing s;
     analysisResult := analysisResult s; selectedAPI := selectedAPI s;
     error := error s; analysisProgress := analysisProgress s;
     showAPIInfo := showAPIInfo s |}.

Definition setCustomQuery (v : JsString) (s : Session) : Session :=
  {| currentPage := currentPage s; selectedTask := selectedTask s;
     videoFile := videoFile s; videoPreview := videoPreview s;
     videoDuration := videoDuration s; customQuery := v;
     isAnalyzing := isAnalyzing s; analysisResult := analysisResult s;
     selectedAPI := selectedAPI s; error := error s;
     analysisProgress := analysisProgress s; showAPIInfo := showAPIInfo s |}.

Definition setIsAnalyzing (v : bool) (s : Session) : Session :=
  {| currentPage := currentPage s; selectedTask := selectedTask s;
     videoFile := videoFile s; videoPreview := videoPreview s;
     videoDuration := videoDuration s; customQuery := customQuery s;
     isAnalyzing := v; analysisResult := analysisResult s;
     selectedAPI := selectedAPI s; error := error s;
     analysisProgress := analysisProgress s; showAPIInfo := showAPIInfo s |}.

Definition setAnalysisResult (v : option AnalysisResult) (s : Session) : Session :=
  {| currentPage := currentPage s; selectedTask := selectedTask s;
     videoFile := videoFile s; videoPreview := videoPreview s;
     videoDuration := videoDuration s; customQuery := customQuery s;
     isAnalyzing := isAnalyzing s; analysisResult := v;
     selectedAPI := selectedAPI s; error := error s;
     analysisProgress := analysisProgress s; showAPIInfo := showAPIInfo s |}.

Definition setSelectedAPI (v : JsString) (s : Session) : Session :=
  {| currentPage := currentPage s; selectedTask := selectedTask s;
     videoFile := videoFile s; videoPreview := videoPreview s;
     videoDuration := videoDuration s; customQuery := customQuery s;
     isAnalyzing := isAnalyzing s; analysisResult := analysisResult s;
     selectedAPI := v; error := error s;
     analysisProgress := analysisProgress s; showAPIInfo := showAPIInfo s |}.

Definition setError (v : option JsString) (s : Session) : Session :=
  {| currentPage := currentPage s; selectedTask := selectedTask s;
     videoFile := videoFile s; videoPreview := videoPreview s;
     videoDuration := videoDuration s; customQuery := customQuery s;
     isAnalyzing := isAnalyzing s; analysisResult := analysisResult s;
     selectedAPI := selectedAPI s; error := v;
     analysisProgress := analysisProgress s; showAPIInfo := showAPIInfo s |}.

Definition setAnalysisProgress (v : Q) (s : Session) : Session :=
  {| currentPage := currentPage s; selectedTask := selectedTask s;
     videoFile := videoFile s; videoPreview := videoPreview s;
     videoDuration := videoDuration s; customQuery := customQuery s;
     isAnalyzing := isAnalyzing s; analysisResult := analysisResult s;
     selectedAPI := selectedAPI s; error := error s;
     analysisProgress := v; showAPIInfo := showAPIInfo s |}.

(** ** Upload (lines 339-376) *)

(** The two guards of [handleVideoUpload], in source order: the type test of
    line 343, then the size test of line 348. *)
Definition validate (file : File) : Verdict :=
  if negb (startsWith (js "video/") (type file)) then Rejected WrongType
  else if 100 * 1024 * 1024 <? size file then Rejected TooLarge
  else Ok.

(** The messages of lines 344 and 349. *)
Definition upload_message (r : Reason) : JsString :=
  match r with
  | WrongType => js "Please upload a valid video file (MP4, MOV, AVI, WebM)"
  | TooLarge =>
      js "File size exceeds 100MB limit. Please use a smaller video or compress it."
  end.

(** Lines 352-355 (and 369-372): the file becomes the session's video. *)
Definition storeVideo (file : File) (st : Session * World) : Session * World :=
  let '(s, w) := st in
  let s := setVideoFile (Some file) s in
  let '(url, w) := createObjectURL w in
  let s := setVideoPreview (Some url) s in
  let s := setError None s in
  let s := setAnalysisResult None s in
  (s, w).

(** [handleVideoUpload]; the argument is [e.target.files?.[0]]. *)
Definition handleVideoUpload (e : option File) (st : Session * World) : Session * World :=
  match e with
  | None => st
  | Some file =>
      match validate file with
      | Rejected r => (setError (Some (upload_message r)) (fst st), snd st)
      | Ok => storeVideo file st
      end
  end.

(** The guards of [handleDrop]: [file.type.startsWith('video/')] of line 364
    encloses the size test of line 365; its [else] is line 374. *)
Definition validateDrop (file : File) : Verdict :=
  if startsWith (js "video/") (type file) then
    if 100 * 1024 * 1024 <? size file then Rejected TooLarge else Ok
  else Rejected WrongType.

(** The messages of lines 366 and 374. *)
Definition drop_message (r : Reason) : JsString :=
  match r with
  | WrongType => js "Please drop a valid video file"
  | TooLarge => js "File size exceeds 100MB limit"
  end.

(** [handleDrop]; the argument is [e.dataTransfer.files?.[0]].  Without a
    file the condition of line 364 is false and the [else] branch runs. *)
Definition handleDrop (e : option File) (st : Session * World) : Session * World :=
  match e with
  | None => (setError (Some (drop_message WrongType)) (fst st), snd st)
  | Some file =>
      match validateDrop file with
      | Rejected r => (setError (Some (drop_message r)) (fst st), snd st)
      | Ok => storeVideo file st
      end
  end.

(** [handleVideoLoaded] (lines 384-388), with [videoRef.current.duration]. *)
Definition handleVideoLoaded (duration : Q) (s : Session) : Session :=
  setVideoDuration (Some duration) s.

(** [resetAnalysis] (lines 567-576). *)
Definition resetAnalysis (st : Session * World) : Session * World :=
  let '(s, w) := st in
  let s := setVideoFile None s in
  let s := setVideoPreview None s in
  let s := setVideoDuration None s in
  let s := setSelectedTask None s in
  let s := setCustomQuery [] s in
  let s := setAnalysisResult None s in
  let s := setError None s in
  let s := setSelectedAPI (js "auto") s in
  (s, w).

(** ** The analyze button (line 929)

    [disabled={!videoFile || !selectedTask || isAnalyzing ||
      (selectedTask === 'custom_query' && !customQuery.trim())}] *)
Definition analyze_disabled (s : Session) : bool :=
  negb (bool_decide (is_Some (videoFile s)))
  || negb (truthy_opt (selectedTask s))
  || isAnalyzing s
  || (bool_decide (selectedTask s = Some (js "custom_query"))
      && negb (truthy (trim (customQuery s)))).

(** ** The simulated provider call (lines 459-544)

    The timer of lines 461-473 only delays the result and moves
    [analysisProgress]; what the call returns, or throws, is a function of
    its arguments.  [task] and [API_CONFIG[apiName]] may be [undefined];
    [apiConfig_name] is [apiConfig.name] as the template literals of lines
    480 and 531 print it. *)
Definition simulateAPICall (task : option Task) (apiName : JsString)
    (file : File) (query : JsString) : Outcome Payload :=
  let apiConfig_name := name_at API_CONFIG api_name apiName in
  let! task_id := read task "id" id in
  if decide (task_id = js "property_damage") then
    let! config_name := apiConfig_name in
    Returns (DamageReport
      (js "Analysis complete using " ++ config_name ++ js ". Video " ++ dquote
         ++ name file ++ dquote ++ js " has been analyzed for property damage.")
      {| score := 15 # 2; label := js "Good";
         condition_description :=
           js "Property shows normal wear with some areas requiring attention." |}
      [ {| item_id := 1;
           location := js "Northeast corner of roof";
           damage_type := js "Shingle damage";
           severity := js "Moderate";
           item_timestamp := js "0:12";
           item_description := js "Several shingles show signs of lifting and wear";
           recommendation := js "Professional inspection recommended within 30 days" |};
        {| item_id := 2;
           location := js "Gutter - East side";
           damage_type := js "Debris accumulation";
           severity := js "Minor";
           item_timestamp := js "0:34";
           item_description := js "Leaves and debris visible in gutter section";
           recommendation := js "Schedule gutter cleaning" |} ]
      [ js "Flashing around chimney appears intact";
        js "No visible water damage or staining";
        js "Ridge cap shingles in good condition" ]
      {| immediate := [js "Clear gutter debris"];
         shortTerm := [js "Schedule professional roof inspection"];
         longTerm := [js "Consider preventive shingle replacement in 2-3 years"] |}
      (87 # 100))
  else if decide (task_id = js "custom_query") then
    Returns (CustomAnswer
      (js "Analysis of " ++ dquote ++ name file ++ dquote ++ js " for query: "
         ++ dquote ++ query ++ dquote)
      (js "Based on the video analysis, here is what I found regarding your question "
         ++ dquote ++ query ++ dquote
         ++ js ": The video shows [detailed analysis would appear here based on actual API response]. Key observations include visual elements, timing, and contextual information relevant to your query.")
      (82 # 100)
      [js "0:05"; js "0:23"; js "0:45"])
  else
    let! config_name := apiConfig_name in
    Returns (GenericFindings
      (js "Analysis complete using " ++ config_name ++ js ". Your video " ++ dquote
         ++ name file ++ dquote ++ js " has been processed.")
      [ js "Video successfully analyzed";
        js "Content identified and categorized";
        js "Key moments detected" ]
      [ {| time := js "0:00"; event := js "Video start" |};
        {| time := js "0:15"; event := js "Key moment detected" |};
        {| time := js "0:30"; event := js "Scene change" |} ]
      (85 # 100)).

(** ** Dispatch: [analyzeVideo] (lines 419-456)

    The function runs in two turns of the event loop, split at the [await]
    of line 436.  [Pending] holds what the closure has captured when it
    suspends. *)
Record Pending := {
  pending_key : JsString;
  pending_task : option Task;
  pending_api : JsString;
  pending_file : File;
  pending_duration : option Q;
  pending_query : JsString
}.

(** Line 451: [err.message || 'Analysis failed. Please try again.']. *)
Definition surfaced (err : JsError) : JsString :=
  if truthy (message err) then message err
  else js "Analysis failed. Please try again.".

(** The [catch] block, lines 449-451. *)
Definition catch (err : JsError) (s : Session) : Session :=
  setError (Some (surfaced err)) s.

(** The [finally] block, lines 452-455. *)
Definition finally (s : Session) : Session :=
  setAnalysisProgress 0 (setIsAnalyzing false s).

(** Line 428: [ANALYSIS_TASKS[selectedTask]].  A property read of an object
    literal does not throw; a key that names nothing yields [undefined].
    (A name inherited from [Object.prototype] yields the inherited member
    in JS, and is outside this definition: see [inherited].) *)
Definition lookupTask (selectedTask : JsString) : Outcome (option Task) :=
  Returns (ANALYSIS_TASKS !! selectedTask).

(** Up to the [await]: the guard of line 420, the resets of lines 422-425,
    the lookups of lines 428-430 and the call of [simulateAPICall].  A throw
    of line 430 is caught at once, and no call is issued. *)
Definition analyzeVideo_start (st : Session * World) : Session * World * option Pending :=
  let '(s, w) := st in
  match videoFile s, selectedTask s with
  | Some file, Some key =>
      if truthy key then
        let s1 := setIsAnalyzing true s in
        let s1 := setError None s1 in
        let s1 := setAnalysisResult None s1 in
        let s1 := setAnalysisProgress 10 s1 in
        match (let! task := lookupTask key in
               let! api := apiToUse key (selectedAPI s) in
               Returns (task, api)) with
        | Throws err => (finally (catch err s1), w, None)
        | Returns (task, api) =>
            (setAnalysisProgress 20 s1, invoke api w,
             Some {| pending_key := key; pending_task := task; pending_api := api;
                     pending_file := file; pending_duration := videoDuration s;
                     pending_query := customQuery s |})
        end
      else (s, w, None)
  | _, _ => (s, w, None)
  end.

Section Dispatch.

(** The provider call; in the source it is [simulateAPICall]. *)
Variable callProvider : option Task -> JsString -> File -> JsString -> Outcome Payload.

(** After the [await]: lines 438-447 when the call resolved, the [catch]
    block when it rejected, then [finally]. *)
Definition analyzeVideo_settle (p : Pending) (st : Session * World) : Session * World :=
  let '(s, w) := st in
  match callProvider (pending_task p) (pending_api p) (pending_file p) (pending_query p) with
  | Returns result =>
      let s := setAnalysisProgress 100 s in
      let s := setAnalysisResult
                 (Some {| task := pending_key p;
                          api := pending_api p;
                          timestamp := toISOString (clock w);
                          videoName := name (pending_file p);
                          resultDuration := pending_duration p;
                          videoSize := size (pending_file p);
                          data := result |}) s in
      (finally s, w)
  | Throws err => (finally (catch err s), w)
  end.

(** A whole run with no other event in between; the call takes [elapsed]
    milliseconds. *)
Definition analyzeVideo_with (elapsed : N) (st : Session * World) : Session * World :=
  match analyzeVideo_start st with
  | (s, w, None) => (s, w)
  | (s, w, Some p) => analyzeVideo_settle p (s, advance elapsed w)
  end.

End Dispatch.

Definition analyzeVideo : N -> Session * World -> Session * World :=
  analyzeVideo_with simulateAPICall.

(** ** Display helpers *)

(** [formatDuration] (lines 391-396) on a duration of a whole number of
    seconds ([None] is [null]).  Below 2^53 the quotient [seconds / 60]
    rounds to a double with the same integer part, and [seconds % 60] is
    exact, so both [Math.floor] are the integer quotient and remainder. *)
Definition formatDuration (seconds : option N) : JsString :=
  match seconds with
  | None => js "--:--"
  | Some 0 => js "--:--"
  | Some n =>
      let mins := n / 60 in
      let secs := n mod 60 in
      numberToString mins ++ js ":" ++ padStart 2 48 (numberToString secs)
  end.

(** [formatFileSize] (lines 399-403). *)
Definition formatFileSize (bytes : N) : JsString :=
  if bytes <? 1024 then numberToString bytes ++ js " B"
  else if bytes <? 1024 * 1024 then toFixed 1 bytes 1024 ++ js " KB"
  else toFixed 1 bytes (1024 * 1024) ++ js " MB".

(** Line 973: [API_CONFIG[analysisResult.api]?.name || analysisResult.api]. *)
Definition providerLabel (r : AnalysisResult) : JsString :=
  match API_CONFIG !! api r with
  | Some config => if truthy (api_name config) then api_name config else api r
  | None =>
      if inherited (api r) then default (api r) (member_name (api r)) else api r
  end.

(** ** Copy and export (lines 547-564)

    The text written is [JSON.stringify(analysisResult, null, 2)]; it is
    kept here as the result it serializes. *)
Definition copyResults (s : Session) : option AnalysisResult := analysisResult s.

(** What the anchor of lines 559-562 downloads. *)
Record Download := {
  content : AnalysisResult;
  href : nat;
  download : JsString
}.

(** [exportResults]: the blob gets an object URL, and the file is named
    after [Date.now()]. *)
Definition exportResults (st : Session * World) : World * option Download :=
  let '(s, w) := st in
  match analysisResult s with
  | None => (w, None)
  | Some r =>
      let '(url, w') := createObjectURL w in
      (w', Some {| content := r; href := url;
                   download := js "javari-analysis-" ++ numberToString (clock w)
                               ++ js ".json" |})
  end.

(** ** The component as a transition system

    [System] is the component between two events: its state, the browser,
    and the runs of [analyzeVideo] suspended at their [await]. *)
Record System := {
  session : Session;
  world : World;
  pending : list Pending
}.

(** The events of the page, each with the line that binds its handler. *)
Inductive Event :=
| PageChosen (page : JsString)      (* 592-595, 617, 768-771 *)
| ApiInfoToggled (shown : bool)     (* 598, 620, 711-715, 774, 1148-1152 *)
| FeatureCardClicked (key : JsString)  (* 657-660 *)
| TaskCardClicked (key : JsString)  (* 841 *)
| FileChosen (e : option File)      (* 825 *)
| FileDropped (e : option File)     (* 787 *)
| MetadataLoaded (duration : Q)     (* 797 *)
| ResetClicked                      (* 805-808, 963 *)
| QueryTyped (text : JsString)      (* 869 *)
| ApiChosen (value : JsString)      (* 885, 902 *)
| ErrorDismissed                    (* 920 *)
| AnalyzeClicked                    (* 928 *)
| ProgressTimer (progress : Q)      (* 463-472 *)
| CallSettled                       (* the [await] of line 436 resumes *)
| ExportClicked                     (* 960 *)
| TimePassed (ms : N).

Definition setCurrentPage (v : JsString) (s : Session) : Session :=
  {| currentPage := v; selectedTask := selectedTask s; videoFile := videoFile s;
     videoPreview := videoPreview s; videoDuration := videoDuration s;
     customQuery := customQuery s; isAnalyzing := isAnalyzing s;
     analysisResult := analysisResult s; selectedAPI := selectedAPI s;
     error := error s; analysisProgress := analysisProgress s;
     showAPIInfo := showAPIInfo s |}.

Definition setShowAPIInfo (v : bool) (s : Session) : Session :=
  {| currentPage := currentPage s; selectedTask := selectedTask s;
     videoFile := videoFile s; videoPreview := videoPreview s;
     videoDuration := videoDuration s; customQuery := customQuery s;
     isAnalyzing := isAnalyzing s; analysisResult := analysisResult s;
     selectedAPI := selectedAPI s; error := error s;
     analysisProgress := analysisProgress s; showAPIInfo := v |}.

Definition with_session (f : Session -> Session) (sys : System) : System :=
  {| session := f (session sys); world := world sys; pending := pending sys |}.

Definition with_state (f : Session * World -> Session * World) (sys : System) : System :=
  let '(s, w) := f (session sys, world sys) in
  {| session := s; world := w; pending := pending sys |}.

(** One event.  The result is [None] when the page cannot produce the event:
    the task cards are the keys of [ANALYSIS_TASKS], the provider radios are
    ['auto'] and the keys of [API_CONFIG], a disabled analyze button does not
    fire, and only a suspended run can settle.  Which page or panel shows an
    element is not tracked: every state the page can reach is reachable
    here. *)
Definition fire (ev : Event) (sys : System) : option System :=
  match ev with
  | PageChosen page =>
      if bool_decide (page = js "home") || bool_decide (page = js "analyze")
      then Some (with_session (setCurrentPage page) sys) else None
  | ApiInfoToggled shown => Some (with_session (setShowAPIInfo shown) sys)
  | FeatureCardClicked key =>
      if bool_decide (is_Some (ANALYSIS_TASKS !! key))
      then Some (with_session
                   (λ s, setCurrentPage (js "analyze") (setSelectedTask (Some key) s)) sys)
      else None
  | TaskCardClicked key =>
      if bool_decide (is_Some (ANALYSIS_TASKS !! key))
      then Some (with_session (setSelectedTask (Some key)) sys) else None
  | FileChosen e => Some (with_state (handleVideoUpload e) sys)
  | FileDropped e => Some (with_state (handleDrop e) sys)
  | MetadataLoaded duration => Some (with_session (handleVideoLoaded duration) sys)
  | ResetClicked => Some (with_state resetAnalysis sys)
  | QueryTyped text => Some (with_session (setCustomQuery text) sys)
  | ApiChosen value =>
      if bool_decide (value = js "auto") || bool_decide (is_Some (API_CONFIG !! value))
      then Some (with_session (setSelectedAPI value) sys) else None
  | ErrorDismissed => Some (with_session (setError None) sys)
  | AnalyzeClicked =>
      if analyze_disabled (session sys) then None
      else
        let '(s, w, p) := analyzeVideo_start (session sys, world sys) in
        Some {| session := s; world := w;
                pending := pending sys ++ option_list p |}
  | ProgressTimer progress => Some (with_session (setAnalysisProgress progress) sys)
  | CallSettled =>
      match pending sys with
      | [] => None
      | p :: rest =>
          let '(s, w) := analyzeVideo_settle simulateAPICall p (session sys, world sys) in
          Some {| session := s; world := w; pending := rest |}
      end
  | ExportClicked =>
      Some {| session := session sys;
              world := fst (exportResults (session sys, world sys));
              pending := pending sys |}
  | TimePassed ms =>
      Some {| session := session sys; world := advance ms (world sys);
              pending := pending sys |}
  end.

(** A sequence of events, from left to right. *)
Fixpoint run (evs : list Event) (sys : System) : option System :=
  match evs with
  | [] => Some sys
  | ev :: rest =>
      match fire ev sys with
      | Some sys' => run rest sys'
      | None => None
      end
  end.

(** The component as mounted, in a browser [w]. *)
Definition mounted (w : World) : System :=
  {| session := initial; world := w; pending := [] |}.

End App.


(** ** The second build (lines 1191-2061): the analyze button *)

Module Build2.

(** The state variables of lines 1327-1334 that the upload section and the
    button read; [currentPage] and [analysisResult] are left out. *)
Record Session := {
  selectedTask : option JsString;
  videoFile : option File;
  videoPreview : option nat;
  customQuery : JsString;
  isAnalyzing : bool;
  selectedAPI : JsString;
  error : option JsString
}.

(** Line 1592: [disabled={!videoFile || !selectedTask || isAnalyzing}]. *)
Definition analyze_disabled (s : Session) : bool :=
  negb (bool_decide (is_Some (videoFile s)))
  || negb (truthy_opt (selectedTask s))
  || isAnalyzing s.

(** *** Configuration of the second build (lines 1201-1322) *)

Record ApiConfig := {
  api_name : JsString;
  endpoint : JsString;
  capabilities : list JsString;
  freeLimit : JsString;
  bestFor : JsString
}.

Definition API_CONFIG_entries : list (JsString * ApiConfig) :=
  [ (js "gemini",
     {| api_name := js "Google Gemini";
        endpoint := js "https://generativelanguage.googleapis.com/v1beta/models/gemini-1.5-flash:generateContent";
        capabilities := [js "video_qa"; js "damage_analysis"; js "content_summary"; js "scene_description"];
        freeLimit := js "1,500 requests/day";
        bestFor := js "General video understanding, Q&A, analysis" |});
    (js "twelveLabs",
     {| api_name := js "Twelve Labs";
        endpoint := js "https://api.twelvelabs.io/v1.2";
        capabilities := [js "semantic_search"; js "timestamp_finding"; js "video_indexing"; js "highlight_detection"];
        freeLimit := js "600 minutes lifetime";
        bestFor := js "Finding specific moments, semantic search" |});
    (js "googleVideoIntelligence",
     {| api_name := js "Google Cloud Video Intelligence";
        endpoint := js "https://videointelligence.googleapis.com/v1/videos:annotate";
        capabilities := [js "object_detection"; js "label_detection"; js "scene_change"; js "explicit_content"; js "speech_transcription"];
        freeLimit := js "1,000 minutes/month";
        bestFor := js "Object tracking, label detection, scene analysis" |});
    (js "roboflow",
     {| api_name := js "Roboflow";
        endpoint := js "https://detect.roboflow.com";
        capabilities := [js "custom_detection"; js "damage_detection"; js "defect_analysis"; js "object_segmentation"];
        freeLimit := js "14-day trial + free tier";
        bestFor := js "Custom damage detection, specialized models" |}) ].

Definition API_CONFIG : gmap JsString ApiConfig := list_to_map API_CONFIG_entries.

(** An entry of [ANALYSIS_TASKS]; [prompts] keeps the keys of the prompt
    table. *)
Record Task := {
  task_name : JsString;
  task_description : JsString;
  primaryAPI : JsString;
  fallbackAPI : JsString;
  prompts : list JsString
}.

Definition ANALYSIS_TASKS_entries : list (JsString * Task) :=
  [ (js "damage_inspection",
     {| task_name := js "Property Damage Inspection";
        task_description := js "Analyze roof, siding, or structural damage from drone/camera footage";
        primaryAPI := js "gemini"; fallbackAPI := js "roboflow";
        prompts := [js "gemini"] |});
    (js "vehicle_damage",
     {| task_name := js "Vehicle Damage Assessment";
        task_description := js "Detect dents, scratches, and collision damage on vehicles";
        primaryAPI := js "roboflow"; fallbackAPI := js "gemini";
        prompts := [js "gemini"] |});
    (js "semantic_search",
     {| task_name := js "Semantic Video Search";
        task_description := js "Find specific moments, objects, or actions within video";
        primaryAPI := js "twelveLabs"; fallbackAPI := js "gemini";
        prompts := [js "gemini"] |});
    (js "object_tracking",
     {| task_name := js "Object Detection & Tracking";
        task_description := js "Identify and track objects, people, or items throughout video";
        primaryAPI := js "googleVideoIntelligence"; fallbackAPI := js "gemini";
        prompts := [js "gemini"] |});
    (js "content_summary",
     {| task_name := js "Video Summary & Analysis";
        task_description := js "Generate comprehensive summary with key moments and insights";
        primaryAPI := js "gemini"; fallbackAPI := js "twelveLabs";
        prompts := [js "gemini"] |});
    (js "custom_query",
     {| task_name := js "Custom Video Query";
        task_description := js "Ask any question about your video content";
        primaryAPI := js "gemini"; fallbackAPI := js "twelveLabs";
        prompts := [] |}) ].

Definition ANALYSIS_TASKS : gmap JsString Task := list_to_map ANALYSIS_TASKS_entries.

(** *** Results of the second build (lines 1413-1431 and 1396-1401) *)

Record Finding := {
  finding_type : JsString;
  finding_description : JsString;
  finding_severity : JsString;
  finding_timestamp : JsString
}.

Record Metadata := {
  duration : JsString;
  resolution : JsString;
  fps : N;
  fileSize : JsString
}.

Record Payload := {
  summary : JsString;
  findings : list Finding;
  metadata : Metadata;
  recommendations : list JsString
}.

Record AnalysisResult := {
  api : JsString;
  task : JsString;
  timestamp : Timestamp;
  data : Payload
}.

(** The whole state of the second build: [Session] and the two variables
    it leaves out. *)
Record State := {
  session : Session;
  currentPage : JsString;
  analysisResult : option AnalysisResult
}.

(** Lines 1344-1347 and 1360-1363: the file becomes the session's video. *)
Definition storeVideo (file : File) (st : State * World) : State * World :=
  let '(url, w) := createObjectURL (snd st) in
  let s := session (fst st) in
  ({| session := {| selectedTask := selectedTask s;
                    videoFile := Some file;
                    videoPreview := Some url;
                    customQuery := customQuery s;
                    isAnalyzing := isAnalyzing s;
                    selectedAPI := selectedAPI s;
                    error := None |};
      currentPage := currentPage (fst st);
      analysisResult := None |}, w).

Definition setError (v : option JsString) (st : State) : State :=
  let s := session st in
  {| session := {| selectedTask := selectedTask s;
                   videoFile := videoFile s;
                   videoPreview := videoPreview s;
                   customQuery := customQuery s;
                   isAnalyzing := isAnalyzing s;
                   selectedAPI := selectedAPI s;
                   error := v |};
     currentPage := currentPage st;
     analysisResult := analysisResult st |}.

(** [handleVideoUpload] (lines 1337-1349): the size is tested, the type is
    not. *)
Definition handleVideoUpload (e : option File) (st : State * World) : State * World :=
  match e with
  | None => st
  | Some file =>
      if 100 * 1024 * 1024 <? size file
      then (setError (Some (js "File size exceeds 100MB limit")) (fst st), snd st)
      else storeVideo file st
  end.

(** [handleDrop] (lines 1352-1365): the [if] of line 1355 has no [else]. *)
Definition handleDrop (e : option File) (st : State * World) : State * World :=
  match e with
  | None => st
  | Some file =>
      if startsWith (js "video/") (type file) then
        if 100 * 1024 * 1024 <? size file
        then (setError (Some (js "File size exceeds 100MB limit")) (fst st), snd st)
        else storeVideo file st
      else st
  end.

(** [simulateAPICall] (lines 1410-1432): [task] and [query] are not read;
    [API_CONFIG[api].name] throws when [API_CONFIG[api]] is [undefined]. *)
Definition simulateAPICall (api : JsString) (task : option Task) (file : File)
    (query : JsString) : Outcome Payload :=
  let! config_name := name_at API_CONFIG api_name api in
  Returns
    {| summary := js "Analysis completed using " ++ config_name;
       findings :=
         [ {| finding_type := js "observation";
              finding_description := js "Video successfully processed";
              finding_severity := js "info"; finding_timestamp := js "0:00" |};
           {| finding_type := js "detection";
              finding_description := js "Multiple objects detected in frame";
              finding_severity := js "info"; finding_timestamp := js "0:15" |};
           {| finding_type := js "analysis";
              finding_description := js "Content analysis complete";
              finding_severity := js "success"; finding_timestamp := js "0:30" |} ];
       metadata :=
         {| duration := js "1:30"; resolution := js "1920x1080"; fps := 30;
            fileSize := toFixed 2 (size file) (1024 * 1024) ++ js " MB" |};
       recommendations :=
         [ js "For detailed damage assessment, consider multiple camera angles";
           js "Higher resolution footage may improve detection accuracy";
           js "Ensure adequate lighting for best results" ] |}.

(** [analyzeVideo] (lines 1381-1407), as one run: the state is the one at
    the click, and [now] is the clock when the call has resolved.  For a
    [selectedTask] inherited from [Object.prototype] the task read is the
    inherited member: [task.primaryAPI] is [undefined], and the call then
    throws on [API_CONFIG[undefined].name]. *)
Definition analyzeVideo (now : N) (st : State) : State :=
  let s := session st in
  match videoFile s, selectedTask s with
  | Some file, Some key =>
      if truthy key then
        let task := ANALYSIS_TASKS !! key in
        let outcome :=
          let! apiToUse :=
            (if decide (selectedAPI s = js "auto")
             then (if inherited key then Throws (TypeError_undefined "name")
                   else read task "primaryAPI" primaryAPI)
             else Returns (selectedAPI s)) in
          let! result := simulateAPICall apiToUse task file (customQuery s) in
          Returns {| api := apiToUse; task := key;
                     timestamp := toISOString now; data := result |} in
        let finish (err : option JsString) (res : option AnalysisResult) :=
          {| session := {| selectedTask := selectedTask s;
                           videoFile := videoFile s;
                           videoPreview := videoPreview s;
                           customQuery := customQuery s;
                           isAnalyzing := false;
                           selectedAPI := selectedAPI s;
                           error := err |};
             currentPage := currentPage st;
             analysisResult := res |} in
        match outcome with
        | Returns r => finish None (Some r)
        | Throws err =>
            finish (Some (if truthy (message err) then message err
                          else js "Analysis failed. Please try again.")) None
        end
      else st
  | _, _ => st
  end.

(** [resetAnalysis] (lines 1435-1442); [selectedAPI] is not reset here. *)
Definition resetAnalysis (st : State) : State :=
  {| session := {| selectedTask := None; videoFile := None; videoPreview := None;
                   customQuery := []; isAnalyzing := isAnalyzing (session st);
                   selectedAPI := selectedAPI (session st); error := None |};
     currentPage := currentPage st;
     analysisResult := None |}.

End Build2.


(** ** The third build (lines 2062-2603): [handleFile] *)

Module Build3.

(** The object of lines 2186-2192. *)
Record UploadedFile := {
  up_file : File;
  up_name : JsString;
  up_size : JsString;
  up_type : JsString;
  preview : nat
}.

(** Decimal digits of a natural number. *)
Definition decimal (n : N) : JsString := js (NilZero.string_of_uint (N.to_uint n)).

(** [(bytes / (1024 * 1024)).toFixed(2) + ' MB']: the quotient is exact in
    double precision for every size below 2^53, and [toFixed] rounds it to
    the nearest hundredth, upwards on a tie. *)
Definition megabytes (bytes : N) : JsString :=
  let hundredths := (200 * bytes + 1048576) / 2097152 in
  decimal (hundredths / 100) ++ js "."
  ++ (if hundredths mod 100 <? 10 then js "0" else []) ++ decimal (hundredths mod 100)
  ++ js " MB".

(** [handleFile] (lines 2184-2194), on the [uploadedFile] state variable. *)
Definition handleFile (file : File) (st : option UploadedFile * World)
    : option UploadedFile * World :=
  if startsWith (js "video/") (type file) || startsWith (js "image/") (type file) then
    let '(url, w) := createObjectURL (snd st) in
    (Some {| up_file := file; up_name := name file; up_size := megabytes (size file);
             up_type := type file; preview := url |}, w)
  else st.

(** [handleDrop] (lines 2175-2182), on the first dropped file if any. *)
Definition handleDrop (e : option File) (st : option UploadedFile * World)
    : option UploadedFile * World :=
  match e with
  | Some file => handleFile file st
  | None => st
  end.

(** The remove button of line 2383: [setUploadedFile(null)]. *)
Definition removeFile (st : option UploadedFile * World) : option UploadedFile * World :=
  (None, snd st).

(** The three ways the page changes [uploadedFile]: the file input of line
    2365, a drop, and the remove button. *)
Inductive Action :=
| FilePicked (e : option File)
| FileDropped (e : option File)
| RemoveClicked.

Definition act (st : option UploadedFile * World) (a : Action)
    : option UploadedFile * World :=
  match a with
  | FilePicked (Some file) => handleFile file st
  | FilePicked None => st
  | FileDropped e => handleDrop e st
  | RemoveClicked => removeFile st
  end.

End Build3.



Import App.

(** ** Sample inputs *)

Definition clip (bytes : N) : File :=
  {| name := js "roof.mp4"; type := js "video/mp4"; size := bytes |}.

Definition screenshot : File :=
  {| name := js "shot.png"; type := js "image/png"; size := 2048 |}.

(** An AVI recording: a video type, for which a browser that cannot decode
    it fires no [loadedmetadata]. *)
Definition site_avi : File :=
  {| name := js "site.avi"; type := js "video/x-msvideo"; size := 2048 |}.

Definition world0 : World :=
  {| objectURLs := ∅; nextURL := 0; revocations := []; clock := 0; invoked := [] |}.

(** A session that asks for a summary of a small clip. *)
Definition summary_request : Session :=
  setSelectedTask (Some (js "content_summary"))
    (setVideoFile (Some (clip 1024)) initial).


(** A summary of a small clip is started, and then settles. *)
Definition started_trace : list Event :=
  [ FileChosen (Some (clip 1024)); MetadataLoaded 90;
    TaskCardClicked (js "content_summary"); AnalyzeClicked ].

Definition settled_trace : list Event := started_trace ++ [CallSettled].

(** The second build as mounted. *)
Definition build2_initial : Build2.State :=
  {| Build2.session :=
       {| Build2.selectedTask := None; Build2.videoFile := None;
          Build2.videoPreview := None; Build2.customQuery := [];
          Build2.isAnalyzing := false; Build2.selectedAPI := js "auto";
          Build2.error := None |};
     Build2.currentPage := js "home";
     Build2.analysisResult := None |}.


(** The severities a damage item may carry. *)
Definition severities : list JsString := [js "Minor"; js "Moderate"; js "Severe"].

(** ** Predicates on states *)

(** A file that passes both upload guards. *)
Definition valid_file (f : File) : Prop :=
  startsWith (js "video/") (type f) = true /\ size f <= 100 * 1024 * 1024.

(** The four messages the upload handlers can set. *)
Definition upload_messages : list JsString :=
  [ upload_message WrongType; upload_message TooLarge;
    drop_message WrongType; drop_message TooLarge ].

(** The payload has the shape [simulateAPICall] gives the task [key]. *)
Definition shape_matches (key : JsString) (p : Payload) : Prop :=
  match p with
  | DamageReport _ _ _ _ _ _ => key = js "property_damage"
  | CustomAnswer _ _ _ _ => key = js "custom_query"
  | GenericFindings _ _ _ _ => key ≠ js "property_damage" /\ key ≠ js "custom_query"
  end.

(** A suspended call for a task of the catalog, to a configured provider,
    on a file that passed the upload guards. *)
Definition valid_pending (p : Pending) : Prop :=
  (exists t, ANALYSIS_TASKS !! pending_key p = Some t /\ pending_task p = Some t)
  /\ is_Some (API_CONFIG !! pending_api p)
  /\ valid_file (pending_file p).

Definition valid_result (r : AnalysisResult) : Prop :=
  is_Some (ANALYSIS_TASKS !! task r)
  /\ is_Some (API_CONFIG !! api r)
  /\ videoSize r <= 100 * 1024 * 1024
  /\ shape_matches (task r) (data r).

(** What an upload handler may do to the state: nothing, set one of the
    upload messages, or store a file that passed the guards. *)
Inductive UploadEffect (st : Session * World) : Session * World -> Prop :=
| upload_ignored : UploadEffect st st
| upload_rejected (m : JsString) :
    m ∈ upload_messages -> UploadEffect st (setError (Some m) (fst st), snd st)
| upload_stored (f : File) :
    valid_file f -> UploadEffect st (storeVideo f st).

(** What holds of the component after any sequence of events, when it was
    mounted in the browser [w0]. *)
Record Invariant (w0 : World) (sys : System) : Prop := {
  inv_file : forall f, videoFile (session sys) = Some f -> valid_file f;
  inv_preview : is_Some (videoFile (session sys)) <-> is_Some (videoPreview (session sys));
  inv_registered :
    forall u, videoPreview (session sys) = Some u -> u ∈ objectURLs (world sys);
  inv_task :
    forall k, selectedTask (session sys) = Some k -> is_Some (ANALYSIS_TASKS !! k);
  inv_api :
    selectedAPI (session sys) = js "auto"
    \/ is_Some (API_CONFIG !! selectedAPI (session sys));
  inv_revocations : revocations (world sys) = revocations w0;
  inv_urls : objectURLs w0 ⊆ objectURLs (world sys);
  inv_pending : Forall valid_pending (pending sys);
  inv_single :
    (isAnalyzing (session sys) = true /\ exists p, pending sys = [p])
    \/ (isAnalyzing (session sys) = false /\ pending sys = []);
  inv_error : forall m, error (session sys) = Some m -> m ∈ upload_messages;
  inv_result : forall r, analysisResult (session sys) = Some r -> valid_result r
}.

(** * Properties *)

(** Case analysis on a catalog entry. *)
Ltac catalog_cases H :=
  unfold ANALYSIS_TASKS_entries in H;
  repeat (apply elem_of_cons in H as [H|H]);
  [ injection H as -> -> .. | by apply elem_of_nil in H ].


(** ** Strings *)

Lemma trimStart_nil (s : JsString) :
  trimStart s = [] <-> Forall (λ c, isWhiteSpace c = true) s.
Proof.
  induction s as [|c s IH]; simpl.
  - split; [constructor | reflexivity].
  - destruct (isWhiteSpace c) eqn:Hc.
    + rewrite IH. split; [by constructor | by inversion 1].
    + split; [discriminate | inversion 1; congruence].
Qed.

Lemma trimStart_head (s : JsString) (c : N) (r : JsString) :
  trimStart s = c :: r -> isWhiteSpace c = false /\ c ∈ s.
Proof.
  induction s as [|d s IH]; simpl; [discriminate|].
  destruct (isWhiteSpace d) eqn:Hd.
  - intros H. destruct (IH H) as [? ?]. split; [done | by right].
  - intros [= -> ->]. split; [done | by left].
Qed.

(** [trim] leaves nothing exactly when every character is white space. *)
Lemma trim_nil (s : JsString) :
  trim s = [] <-> Forall (λ c, isWhiteSpace c = true) s.
Proof.
  unfold trim, trimEnd. split.
  - intros H. apply trimStart_nil.
    destruct (trimStart s) as [|c r] eqn:Hs; [done|].
    apply (f_equal (@rev N)) in H. rewrite rev_involutive in H. simpl in H.
    apply trimStart_nil in H.
    apply trimStart_head in Hs as [Hc _].
    rewrite Forall_forall in H.
    specialize (H c). rewrite Hc in H.
    assert (c ∈ rev (c :: r)) as Hin
      by (apply list_elem_of_In, (proj1 (in_rev _ _)); by left).
    by specialize (H Hin).
  - intros H. apply trimStart_nil in H. by rewrite H.
Qed.

Example trim_examples :
  trim (js "  what colour is the car? ") = js "what colour is the car?"
  /\ trim (js " ") = [] /\ trim [9; 160; 8232; 12288] = [].
Proof. vm_compute. done. Qed.

Example megabytes_examples :
  Build3.megabytes 1048576 = js "1.00 MB"
  /\ Build3.megabytes 1572864 = js "1.50 MB"
  /\ Build3.megabytes 52429 = js "0.05 MB"
  /\ Build3.megabytes 104857601 = js "100.00 MB".
Proof. vm_compute. done. Qed.

(** ** The catalogs *)

Lemma ANALYSIS_TASKS_inv (k : JsString) (t : Task) :
  ANALYSIS_TASKS !! k = Some t -> (k, t) ∈ ANALYSIS_TASKS_entries.
Proof. apply elem_of_list_to_map_2. Qed.



(** Every task is filed under its own [id], and [API_ROUTING] repeats the
    two providers of the task. *)
Lemma catalog_consistent (k : JsString) (t : Task) :
  ANALYSIS_TASKS !! k = Some t ->
  id t = k /\
  API_ROUTING !! k = Some {| primary := primaryAPI t; fallback := fallbackAPI t |}.
Proof.
  intros H. apply ANALYSIS_TASKS_inv in H.
  catalog_cases H; split; vm_compute; reflexivity.
Qed.

(** ** C1: routing *)

(** C1. For every task of the catalog, override ["auto"] resolves to the
    task's primary provider, and every other override [o] resolves to [o]
    itself, whatever [o] is: it is not checked against [API_CONFIG] or the
    task. *)
Theorem resolve_auto_primary_override_verbatim (k : JsString) (t : Task) :
  ANALYSIS_TASKS !! k = Some t ->
  apiToUse k (js "auto") = Returns (primaryAPI t)
  /\ forall o : JsString, o ≠ js "auto" -> apiToUse k o = Returns o.
Proof.
  intros H. apply catalog_consistent in H as [_ Hr]. split.
  - unfold apiToUse. rewrite Hr. by rewrite decide_True.
  - intros o Ho. unfold apiToUse. by rewrite decide_False.
Qed.

Lemma resolve_auto_primary_override_verbatim_witness :
  apiToUse (js "vehicle_damage") (js "auto") = Returns (js "roboflow")
  /\ apiToUse (js "vehicle_damage") (js "twelveLabs") = Returns (js "twelveLabs")
  /\ apiToUse (js "vehicle_damage") (js "no such provider")
     = Returns (js "no such provider").
Proof.
  pose proof (resolve_auto_primary_override_verbatim (js "vehicle_damage")
    {| id := js "vehicle_damage";
       task_name := js "Vehicle Damage Assessment";
       task_description := js "Detect dents, scratches, and damage on vehicles";
       task_color := js "#F59E0B";
       primaryAPI := js "roboflow";
       fallbackAPI := js "gemini";
       creditCost := 4;
       prompts := [js "gemini"] |}) as H.
  destruct H as [Ha Ho]; [vm_compute; reflexivity|].
  split; [exact Ha|].
  split; apply Ho; vm_compute; discriminate.
Defined.

(** ** C2: the property-damage scenario *)

(** C2. The catalog has a task [property_damage] with primary provider
    [gemini] and fallback [roboflow]; dispatched with override ["auto"] on
    any video, the call goes to [gemini], and the payload stored carries a
    [damageItems] list of at least one entry, each with a severity among
    Minor, Moderate, Severe and a non-empty recommendation. *)
Theorem property_damage_scenario (file : File) (s : Session) (w : World) (elapsed : N) :
  (exists t, ANALYSIS_TASKS !! js "property_damage" = Some t
             /\ primaryAPI t = js "gemini" /\ fallbackAPI t = js "roboflow")
  /\ let s0 := setSelectedAPI (js "auto")
                 (setSelectedTask (Some (js "property_damage"))
                    (setVideoFile (Some file) s)) in
     exists s' w' r items,
       analyzeVideo elapsed (s0, w) = (s', w')
       /\ invoked w' = invoked w ++ [js "gemini"]
       /\ analysisResult s' = Some r
       /\ api r = js "gemini"
       /\ damageItems_of (data r) = Some items
       /\ (1 <= length items)%nat
       /\ Forall (λ i, severity i ∈ severities /\ recommendation i ≠ []) items.
Proof.
  split.
  - eexists. split; [vm_compute; reflexivity|]. split; reflexivity.
  - destruct s, w. vm_compute.
    do 4 eexists. split; [reflexivity|].
    split; [reflexivity|]. split; [reflexivity|]. split; [reflexivity|].
    split; [reflexivity|]. split; [lia|].
    repeat constructor; discriminate.
Qed.

(** ** C3, C4, C10: upload validation *)

Lemma validate_video (file : File) :
  startsWith (js "video/") (type file) = true ->
  validate file = (if 100 * 1024 * 1024 <? size file then Rejected TooLarge else Ok)
  /\ validateDrop file = validate file.
Proof. unfold validate, validateDrop. intros ->. done. Qed.

Lemma validate_not_video (file : File) :
  startsWith (js "video/") (type file) = false ->
  validate file = Rejected WrongType /\ validateDrop file = Rejected WrongType.
Proof. unfold validate, validateDrop. intros ->. done. Qed.

(** C3. For a video file, both upload paths reject with [TooLarge] exactly
    when the size is strictly above 100 MiB: one byte above the limit is
    rejected and nothing is stored, the limit itself is accepted and the
    file is stored. *)
Theorem too_large_iff_above_limit (file : File) (s : Session) (w : World) :
  startsWith (js "video/") (type file) = true ->
  (validate file = Rejected TooLarge <-> 100 * 1024 * 1024 < size file)
  /\ (validateDrop file = Rejected TooLarge <-> 100 * 1024 * 1024 < size file)
  /\ (size file = 100 * 1024 * 1024 + 1 ->
      validate file = Rejected TooLarge
      /\ handleVideoUpload (Some file) (s, w)
         = (setError (Some (upload_message TooLarge)) s, w)
      /\ handleDrop (Some file) (s, w)
         = (setError (Some (drop_message TooLarge)) s, w))
  /\ (size file = 100 * 1024 * 1024 ->
      validate file = Ok
      /\ handleVideoUpload (Some file) (s, w) = storeVideo file (s, w)
      /\ handleDrop (Some file) (s, w) = storeVideo file (s, w)
      /\ videoFile (fst (storeVideo file (s, w))) = Some file).
Proof.
  intros Hv. destruct (validate_video file Hv) as [Hval Hdrop].
  assert (validate file = Rejected TooLarge <-> 100 * 1024 * 1024 < size file) as Hiff.
  { rewrite Hval. destruct (N.ltb_spec (100 * 1024 * 1024) (size file)); split;
      (done || lia). }
  split; [exact Hiff|]. split; [by rewrite Hdrop|]. split.
  - intros Hsz.
    assert (validate file = Rejected TooLarge) as Hr by (apply Hiff; lia).
    unfold handleVideoUpload, handleDrop. rewrite Hdrop, Hr. done.
  - intros Hsz.
    assert (validate file = Ok) as Hok.
    { rewrite Hval. destruct (N.ltb_spec (100 * 1024 * 1024) (size file)); [lia|done]. }
    unfold handleVideoUpload, handleDrop. rewrite Hdrop, Hok.
    repeat split.
Qed.

Lemma too_large_iff_above_limit_witness :
  validate (clip 104857601) = Rejected TooLarge /\ validate (clip 104857600) = Ok.
Proof.
  split.
  - apply (too_large_iff_above_limit (clip 104857601) initial world0); reflexivity.
  - apply (too_large_iff_above_limit (clip 104857600) initial world0); reflexivity.
Defined.

(** C4, as stated, fails in the third build: [handleFile] receives an
    [image/png] file, whose type does not start with [video/], and stores it
    as the uploaded media, with a preview URL. *)
Lemma handleFile_stores_png :
  startsWith (js "video/") (type screenshot) = false
  /\ Build3.handleFile screenshot (None, world0)
     = (Some {| Build3.up_file := screenshot;
                Build3.up_name := js "shot.png";
                Build3.up_size := js "0.00 MB";
                Build3.up_type := js "image/png";
                Build3.preview := 0 |},
        snd (createObjectURL world0))
  /\ fst (Build3.handleFile screenshot (None, world0)) ≠ None.
Proof. split; [reflexivity|]. split; [vm_compute; reflexivity | vm_compute; discriminate]. Qed.

(** C4, amended.  In the first build both upload paths reject with
    [WrongType] every file whose type does not start with [video/]: the
    error message is set and the stored media is left as it was.  In the
    third build [handleFile] stores such a file when its type starts with
    [image/], and otherwise ignores it without any error. *)
Theorem non_video_rejected_or_image (file : File) (s : Session) (w : World)
    (st : option Build3.UploadedFile * World) :
  startsWith (js "video/") (type file) = false ->
  validate file = Rejected WrongType
  /\ validateDrop file = Rejected WrongType
  /\ handleVideoUpload (Some file) (s, w)
     = (setError (Some (upload_message WrongType)) s, w)
  /\ handleDrop (Some file) (s, w)
     = (setError (Some (drop_message WrongType)) s, w)
  /\ videoFile (fst (handleVideoUpload (Some file) (s, w))) = videoFile s
  /\ videoFile (fst (handleDrop (Some file) (s, w))) = videoFile s
  /\ (if startsWith (js "image/") (type file)
      then exists u, fst (Build3.handleFile file st) = Some u
                     /\ Build3.up_file u = file
                     /\ Build3.preview u = nextURL (snd st)
      else Build3.handleFile file st = st).
Proof.
  intros Hv. destruct (validate_not_video file Hv) as [H1 H2].
  unfold handleVideoUpload, handleDrop, Build3.handleFile.
  rewrite H1, H2, Hv.
  repeat (split; [reflexivity|]).
  destruct (startsWith (js "image/") (type file)); [|reflexivity].
  eexists. simpl. repeat split.
Qed.

Lemma non_video_rejected_or_image_witness :
  validate screenshot = Rejected WrongType
  /\ videoFile (fst (handleVideoUpload (Some screenshot) (initial, world0))) = None.
Proof.
  pose proof (non_video_rejected_or_image screenshot initial world0 (None, world0))
    as H.
  destruct H as (H1 & _ & _ & _ & H5 & _); [reflexivity|].
  split; [exact H1 | exact H5].
Defined.

(** C10. A rejected upload changes the error message and nothing else: the
    stored file, its preview, the duration, the task, the query, the prior
    result and the browser state keep their values. *)
Theorem rejected_upload_only_sets_error (file : File) (s : Session) (w : World)
    (r : Reason) :
  validate file = Rejected r ->
  handleVideoUpload (Some file) (s, w) = (setError (Some (upload_message r)) s, w)
  /\ handleDrop (Some file) (s, w) = (setError (Some (drop_message r)) s, w)
  /\ forall m : JsString,
       let s' := setError (Some m) s in
       videoFile s' = videoFile s /\ videoPreview s' = videoPreview s
       /\ videoDuration s' = videoDuration s /\ selectedTask s' = selectedTask s
       /\ customQuery s' = customQuery s /\ analysisResult s' = analysisResult s
       /\ selectedAPI s' = selectedAPI s /\ isAnalyzing s' = isAnalyzing s
       /\ error s' = Some m.
Proof.
  intros Hr.
  assert (validateDrop file = Rejected r) as Hd.
  { revert Hr. unfold validate, validateDrop.
    destruct (startsWith (js "video/") (type file)); simpl; [|done].
    destruct (100 * 1024 * 1024 <? size file); done. }
  unfold handleVideoUpload, handleDrop. rewrite Hr, Hd. simpl.
  repeat split.
Qed.

Lemma rejected_upload_only_sets_error_witness :
  handleVideoUpload (Some (clip 104857601)) (initial, world0)
  = (setError (Some (upload_message TooLarge)) initial, world0).
Proof.
  apply (rejected_upload_only_sets_error (clip 104857601) initial world0 TooLarge).
  reflexivity.
Defined.

(** ** C5: the analyze button *)

(** C5, as stated, fails in the second build: with a video, the custom-query
    task and an empty query, and no analysis running, the button of line 1592
    is enabled. *)
Lemma build2_enabled_on_empty_query :
  let s := {| Build2.selectedTask := Some (js "custom_query");
              Build2.videoFile := Some (clip 1024);
              Build2.videoPreview := Some 0%nat;
              Build2.customQuery := [];
              Build2.isAnalyzing := false;
              Build2.selectedAPI := js "auto";
              Build2.error := None |} in
  Build2.selectedTask s = Some (js "custom_query")
  /\ Build2.customQuery s = []
  /\ Build2.analyze_disabled s = false.
Proof. vm_compute. done. Qed.

(** C5, amended.  In the first build the button is disabled whenever the
    task is the custom query and the query is empty or all white space, and
    enabled whenever a video and a task are selected, no analysis is running
    and the query has a character that is not white space.  In the second
    build the button does not look at the query: it is enabled whenever a
    video and a task are selected and no analysis is running. *)
Theorem analyze_button_gating (s : Session) (s2 : Build2.Session) :
  (selectedTask s = Some (js "custom_query") ->
   Forall (λ c, isWhiteSpace c = true) (customQuery s) ->
   analyze_disabled s = true)
  /\ (is_Some (videoFile s) -> truthy_opt (selectedTask s) = true ->
      isAnalyzing s = false ->
      (exists c, c ∈ customQuery s /\ isWhiteSpace c = false) ->
      analyze_disabled s = false)
  /\ (is_Some (Build2.videoFile s2) -> truthy_opt (Build2.selectedTask s2) = true ->
      Build2.isAnalyzing s2 = false ->
      Build2.analyze_disabled s2 = false).
Proof.
  split; [|split].
  - intros Ht Hws. unfold analyze_disabled.
    apply trim_nil in Hws. rewrite Hws, Ht.
    apply orb_true_intro. right.
    by rewrite (bool_decide_eq_true_2 (Some _ = Some _)).
  - intros Hf Ht Ha (c & Hc & Hnw). unfold analyze_disabled.
    rewrite (bool_decide_eq_true_2 _ Hf), Ht, Ha. simpl.
    destruct (trim (customQuery s)) as [|d r] eqn:Htrim.
    + apply trim_nil in Htrim. rewrite Forall_forall in Htrim.
      specialize (Htrim c Hc). congruence.
    + simpl. by rewrite andb_false_r.
  - intros Hf Ht Ha. unfold Build2.analyze_disabled.
    by rewrite (bool_decide_eq_true_2 _ Hf), Ht, Ha.
Qed.

Lemma analyze_button_gating_witness :
  analyze_disabled
    (setCustomQuery (js "  ")
       (setSelectedTask (Some (js "custom_query"))
          (setVideoFile (Some (clip 1024)) initial))) = true
  /\ analyze_disabled
       (setCustomQuery (js " is the roof damaged? ")
          (setSelectedTask (Some (js "custom_query"))
             (setVideoFile (Some (clip 1024)) initial))) = false.
Proof.
  split.
  - apply (analyze_button_gating _
      {| Build2.selectedTask := None; Build2.videoFile := None;
         Build2.videoPreview := None; Build2.customQuery := [];
         Build2.isAnalyzing := false; Build2.selectedAPI := js "auto";
         Build2.error := None |}).
    + reflexivity.
    + repeat constructor.
  - apply (analyze_button_gating _
      {| Build2.selectedTask := None; Build2.videoFile := None;
         Build2.videoPreview := None; Build2.customQuery := [];
         Build2.isAnalyzing := false; Build2.selectedAPI := js "auto";
         Build2.error := None |}).
    + by eexists.
    + reflexivity.
    + reflexivity.
    + exists 105. split; [|reflexivity]. vm_compute. repeat constructor.
Defined.

(** ** C6, C8: dispatch *)

(** What a suspended run has captured, and what it has done so far. *)
Lemma analyzeVideo_start_pending (s s1 : Session) (w w1 : World) (p : Pending) :
  analyzeVideo_start (s, w) = (s1, w1, Some p) ->
  videoFile s = Some (pending_file p)
  /\ selectedTask s = Some (pending_key p)
  /\ apiToUse (pending_key p) (selectedAPI s) = Returns (pending_api p)
  /\ pending_task p = ANALYSIS_TASKS !! pending_key p
  /\ pending_duration p = videoDuration s
  /\ pending_query p = customQuery s
  /\ w1 = invoke (pending_api p) w
  /\ analysisResult s1 = None /\ error s1 = None /\ isAnalyzing s1 = true.
Proof.
  unfold analyzeVideo_start.
  destruct (videoFile s) as [file|]; [|discriminate].
  destruct (selectedTask s) as [key|]; [|discriminate].
  destruct (truthy key); [|discriminate].
  unfold lookupTask. simpl obind.
  destruct (apiToUse key (selectedAPI s)) as [a|e] eqn:Hapi; simpl; [|discriminate].
  intros [= <- <- <-]. simpl. repeat split. exact Hapi.
Qed.



(** C8.  The claim fails on the duration.  [roof.mp4] is uploaded and its
    metadata loads (90 seconds); then [site.avi] is dropped, which replaces
    the file and the preview but not [videoDuration] (lines 369-372, where
    [resetAnalysis] clears it on line 570), and no metadata event follows.
    The analysis of [site.avi] stores its name and its size with the 90
    seconds of [roof.mp4]. *)
Lemma result_carries_previous_duration :
  exists sys r,
    run [ FileChosen (Some (clip 1024)); MetadataLoaded 90;
          TaskCardClicked (js "content_summary");
          FileDropped (Some site_avi); AnalyzeClicked; CallSettled ]
      (mounted world0) = Some sys
    /\ videoFile (session sys) = Some site_avi
    /\ analysisResult (session sys) = Some r
    /\ videoName r = js "site.avi"
    /\ videoSize r = 2048
    /\ resultDuration r = Some 90%Q.
Proof.
  do 2 eexists. split; [vm_compute; reflexivity|]. by repeat split.
Qed.

(** X20. For every provider function: when the provider call of a dispatch
    returns a payload, the result stored is that payload together with the
    task key, the provider the call was issued to, the wall-clock time at
    which the result is wrapped, the name and size of the file that was the
    session's video at the click, and the value [videoDuration] had at the
    click.  This holds for the run with no event in between and for a
    settlement in any later state of the session and the browser. *)
Theorem result_carries_envelope
    (callProvider : option Task -> JsString -> File -> JsString -> Outcome Payload)
    (elapsed : N) (s s1 : Session) (w w1 : World) (p : Pending) (payload : Payload) :
  analyzeVideo_start (s, w) = (s1, w1, Some p) ->
  callProvider (pending_task p) (pending_api p) (pending_file p) (pending_query p)
  = Returns payload ->
  exists s' w' file key provider,
    analyzeVideo_with callProvider elapsed (s, w) = (s', w')
    /\ videoFile s = Some file
    /\ selectedTask s = Some key
    /\ apiToUse key (selectedAPI s) = Returns provider
    /\ invoked w' = invoked w ++ [provider]
    /\ clock w' = clock w + elapsed
    /\ analysisResult s'
       = Some {| task := key;
                 api := provider;
                 timestamp := toISOString (clock w');
                 videoName := name file;
                 resultDuration := videoDuration s;
                 videoSize := size file;
                 data := payload |}
    /\ error s' = None
    /\ isAnalyzing s' = false
    /\ forall (s2 : Session) (w2 : World),
         let st := analyzeVideo_settle callProvider p (s2, w2) in
         analysisResult (fst st)
         = Some {| task := key;
                   api := provider;
                   timestamp := toISOString (clock w2);
                   videoName := name file;
                   resultDuration := videoDuration s;
                   videoSize := size file;
                   data := payload |}
         /\ error (fst st) = error s2
         /\ isAnalyzing (fst st) = false
         /\ snd st = w2.
Proof.
  intros Hstart Hret.
  pose proof (analyzeVideo_start_pending _ _ _ _ _ Hstart)
    as (Hf & Hk & Hapi & _ & Hd & _ & -> & _ & He & _).
  exists (finally
            (setAnalysisResult
               (Some {| task := pending_key p; api := pending_api p;
                        timestamp := toISOString (clock w + elapsed);
                        videoName := name (pending_file p);
                        resultDuration := pending_duration p;
                        videoSize := size (pending_file p);
                        data := payload |})
               (setAnalysisProgress 100 s1))),
    (advance elapsed (invoke (pending_api p) w)),
    (pending_file p), (pending_key p), (pending_api p).
  split.
  { unfold analyzeVideo_with. rewrite Hstart.
    unfold analyzeVideo_settle. rewrite Hret. reflexivity. }
  rewrite <- Hd. simpl. repeat split; try assumption.
  all: unfold analyzeVideo_settle; rewrite Hret; reflexivity.
Qed.

Lemma result_carries_envelope_witness :
  exists s' w' payload,
    analyzeVideo 1500 (summary_request, world0) = (s', w')
    /\ analysisResult s'
       = Some {| task := js "content_summary";
                 api := js "gemini";
                 timestamp := toISOString 1500;
                 videoName := js "roof.mp4";
                 resultDuration := None;
                 videoSize := 1024;
                 data := payload |}.
Proof.
  edestruct (result_carries_envelope simulateAPICall 1500 summary_request)
    as (s' & w' & file & key & provider & Hrun & Hf & Hk & Hp & _ & Hc & Hr & _).
  - vm_compute. reflexivity.
  - vm_compute. reflexivity.
  - exists s', w'. eexists. split; [exact Hrun|].
    injection Hf as <-. injection Hk as <-. injection Hp as <-.
    rewrite Hr, Hc. reflexivity.
Defined.

(** ** C7: preview URLs *)

(** C7, as stated, fails: after an upload and a reset the preview URL has
    been released zero times and is still registered; and after a second
    upload the URL of the first one is still registered next to the new one,
    not released. *)
Lemma preview_url_never_released :
  let st1 := handleVideoUpload (Some (clip 1024)) (initial, world0) in
  let st2 := resetAnalysis st1 in
  let st3 := handleVideoUpload (Some (clip 2048)) st1 in
  videoPreview (fst st1) = Some 0%nat
  /\ released 0 (snd st2) = 0%nat
  /\ 0%nat ∈ objectURLs (snd st2)
  /\ videoPreview (fst st3) = Some 1%nat
  /\ released 0 (snd st3) = 0%nat
  /\ 0%nat ∈ objectURLs (snd st3).
Proof.
  vm_compute. repeat split; apply bool_decide_unpack; vm_compute; exact I.
Qed.

(** C7, amended.  A reset clears the stored file, the preview reference, the
    duration, the task selection, the query, the prior result, the error and
    the provider override, and leaves the browser as it was: no URL is
    released.  An accepted upload stores the file with a newly created
    preview URL; the URLs registered before stay registered, and none is
    released. *)
Theorem reset_clears_session_upload_adds_url (file : File) (s : Session) (w : World) :
  (let st := resetAnalysis (s, w) in
   videoFile (fst st) = None /\ videoPreview (fst st) = None
   /\ videoDuration (fst st) = None /\ selectedTask (fst st) = None
   /\ customQuery (fst st) = [] /\ analysisResult (fst st) = None
   /\ error (fst st) = None /\ selectedAPI (fst st) = js "auto"
   /\ snd st = w)
  /\ (validate file = Ok ->
      let st := handleVideoUpload (Some file) (s, w) in
      videoFile (fst st) = Some file
      /\ videoPreview (fst st) = Some (nextURL w)
      /\ analysisResult (fst st) = None
      /\ objectURLs (snd st) = {[ nextURL w ]} ∪ objectURLs w
      /\ revocations (snd st) = revocations w).
Proof.
  split.
  - simpl. repeat split.
  - intros Hok. unfold handleVideoUpload. rewrite Hok. simpl. repeat split.
Qed.

Lemma reset_clears_session_upload_adds_url_witness :
  let st := handleVideoUpload (Some (clip 1024)) (initial, world0) in
  videoPreview (fst st) = Some 0%nat /\ revocations (snd st) = [].
Proof.
  pose proof (reset_clears_session_upload_adds_url (clip 1024) initial world0)
    as [_ H].
  destruct H as (_ & Hp & _ & _ & Hr); [reflexivity|].
  split; [exact Hp | exact Hr].
Defined.

(** ** C9: task lookup *)




(** * Further properties *)

(** ** The tables *)

(** Every provider a task names is an entry of [API_CONFIG], with a
    non-empty display name. *)
Lemma task_providers_configured (k : JsString) (t : Task) :
  ANALYSIS_TASKS !! k = Some t ->
  is_Some (API_CONFIG !! primaryAPI t) /\ is_Some (API_CONFIG !! fallbackAPI t).
Proof.
  intros H. apply ANALYSIS_TASKS_inv in H.
  catalog_cases H; split; eexists; vm_compute; reflexivity.
Qed.

Lemma API_CONFIG_named (k : JsString) (c : ApiConfig) :
  API_CONFIG !! k = Some c -> truthy (api_name c) = true.
Proof.
  intros H. apply elem_of_list_to_map_2 in H.
  unfold API_CONFIG_entries in H.
  repeat (apply elem_of_cons in H as [H|H]);
    [ injection H as -> -> .. | by apply elem_of_nil in H ]; reflexivity.
Qed.

(** For a task of the catalog and a configured provider the simulated call
    returns, with the payload shape of the task. *)
Lemma simulateAPICall_returns (k : JsString) (t : Task) (a : JsString)
    (file : File) (query : JsString) :
  ANALYSIS_TASKS !! k = Some t -> is_Some (API_CONFIG !! a) ->
  exists payload,
    simulateAPICall (Some t) a file query = Returns payload
    /\ shape_matches k payload.
Proof.
  intros Ht [c Hc]. apply catalog_consistent in Ht as [Hid _].
  unfold simulateAPICall, name_at. rewrite Hc. simpl. rewrite Hid.
  destruct (decide (k = js "property_damage")) as [->|Hpd]; [by eexists|].
  destruct (decide (k = js "custom_query")) as [->|Hcq]; [by eexists|].
  by eexists.
Qed.

(** ** Upload effects and the invariant *)

Lemma validate_Ok_valid (file : File) :
  validate file = Ok -> valid_file file.
Proof.
  unfold validate, valid_file.
  destruct (startsWith (js "video/") (type file)); simpl; [|discriminate].
  destruct (N.ltb_spec (100 * 1024 * 1024) (size file)); [discriminate|].
  intros _. split; [reflexivity | lia].
Qed.

Lemma validate_eq_validateDrop (file : File) : validateDrop file = validate file.
Proof.
  unfold validate, validateDrop.
  by destruct (startsWith (js "video/") (type file)).
Qed.

Lemma handleVideoUpload_effect e st : UploadEffect st (handleVideoUpload e st).
Proof.
  destruct e as [file|]; simpl; [|constructor].
  destruct (validate file) as [|r] eqn:Hv.
  - constructor. by apply validate_Ok_valid.
  - constructor. destruct r; unfold upload_messages; set_solver.
Qed.

Lemma handleDrop_effect e st : UploadEffect st (handleDrop e st).
Proof.
  destruct e as [file|]; simpl.
  - rewrite validate_eq_validateDrop.
    destruct (validate file) as [|r] eqn:Hv.
    + constructor. by apply validate_Ok_valid.
    + constructor. destruct r; unfold upload_messages; set_solver.
  - constructor. unfold upload_messages; set_solver.
Qed.

Lemma mounted_invariant (w : World) : Invariant w (mounted w).
Proof.
  split; simpl; try done.
  all: try (by left). all: try (by right).
Qed.

(** Changes of the session that touch none of the fields the invariant reads. *)
Lemma invariant_frame (w0 : World) (sys : System) (s' : Session) (w' : World) :
  Invariant w0 sys ->
  videoFile s' = videoFile (session sys) ->
  videoPreview s' = videoPreview (session sys) ->
  (forall k, selectedTask s' = Some k -> is_Some (ANALYSIS_TASKS !! k)) ->
  (selectedAPI s' = js "auto" \/ is_Some (API_CONFIG !! selectedAPI s')) ->
  isAnalyzing s' = isAnalyzing (session sys) ->
  (forall m, error s' = Some m -> m ∈ upload_messages) ->
  (forall r, analysisResult s' = Some r -> valid_result r) ->
  revocations w' = revocations (world sys) ->
  objectURLs (world sys) ⊆ objectURLs w' ->
  Invariant w0 {| session := s'; world := w'; pending := pending sys |}.
Proof.
  intros Hinv Hf Hp Ht Ha Hi He Hr Hrev Hurl.
  split; simpl.
  - rewrite Hf. apply Hinv.
  - rewrite Hf, Hp. apply Hinv.
  - rewrite Hp. intros u Hu. apply Hurl. by apply Hinv.
  - exact Ht.
  - exact Ha.
  - rewrite Hrev. apply Hinv.
  - etrans; [apply Hinv | exact Hurl].
  - apply Hinv.
  - rewrite Hi. apply Hinv.
  - exact He.
  - exact Hr.
Qed.

Lemma upload_invariant (w0 : World) (sys : System) (st' : Session * World) :
  Invariant w0 sys ->
  UploadEffect (session sys, world sys) st' ->
  Invariant w0 {| session := fst st'; world := snd st'; pending := pending sys |}.
Proof.
  intros Hinv Heff. destruct Heff as [|m Hm|f Hf]; simpl.
  - by destruct sys.
  - apply invariant_frame; simpl; try done; try apply Hinv.
    intros ? [= <-]. done.
  - split; simpl.
    + by intros ? [= <-].
    + split; by eexists.
    + intros u [= <-]. set_solver.
    + apply Hinv.
    + apply Hinv.
    + apply Hinv.
    + pose proof (inv_urls _ _ Hinv). set_solver.
    + apply Hinv.
    + apply Hinv.
    + done.
    + done.
Qed.

Lemma enabled_inv (s : Session) :
  analyze_disabled s = false ->
  exists file key,
    videoFile s = Some file /\ selectedTask s = Some key /\ truthy key = true
    /\ isAnalyzing s = false.
Proof.
  unfold analyze_disabled. intros H.
  apply orb_false_elim in H as [H _].
  apply orb_false_elim in H as [H Ha].
  apply orb_false_elim in H as [Hf Ht].
  apply negb_false_iff, bool_decide_eq_true in Hf as [file Hf].
  apply negb_false_iff in Ht.
  destruct (selectedTask s) as [key|]; [|discriminate].
  by exists file, key.
Qed.

Lemma analyzeVideo_start_valid (s : Session) (w : World) (file : File)
    (key : JsString) (t : Task) :
  videoFile s = Some file -> selectedTask s = Some key -> truthy key = true ->
  ANALYSIS_TASKS !! key = Some t ->
  (selectedAPI s = js "auto" \/ is_Some (API_CONFIG !! selectedAPI s)) ->
  exists a,
    is_Some (API_CONFIG !! a)
    /\ apiToUse key (selectedAPI s) = Returns a
    /\ analyzeVideo_start (s, w)
       = (setAnalysisProgress 20
            (setAnalysisProgress 10
               (setAnalysisResult None (setError None (setIsAnalyzing true s)))),
          invoke a w,
          Some {| pending_key := key; pending_task := Some t; pending_api := a;
                  pending_file := file; pending_duration := videoDuration s;
                  pending_query := customQuery s |}).
Proof.
  intros Hf Hk Htr Ht Ha.
  pose proof Ht as Ht'.
  assert (exists a, is_Some (API_CONFIG !! a)
                    /\ apiToUse key (selectedAPI s) = Returns a) as (a & Hc & Hr).
  { destruct (decide (selectedAPI s = js "auto")) as [Hauto|Hne].
    - exists (primaryAPI t).
      split; [by apply (task_providers_configured key)|].
      apply catalog_consistent in Ht as [_ Hrt].
      unfold apiToUse. rewrite Hauto, Hrt. by rewrite decide_True.
    - exists (selectedAPI s). destruct Ha as [?|Hc]; [done|].
      split; [done|]. unfold apiToUse. by rewrite decide_False. }
  exists a. split; [done|]. split; [done|].
  unfold analyzeVideo_start. rewrite Hf, Hk, Htr.
  unfold lookupTask. rewrite Ht'. simpl obind. rewrite Hr. reflexivity.
Qed.

Ltac frame Hinv :=
  apply invariant_frame; simpl; try reflexivity; try apply Hinv.

Lemma fire_invariant (w0 : World) (ev : Event) (sys sys' : System) :
  Invariant w0 sys -> fire ev sys = Some sys' -> Invariant w0 sys'.
Proof.
  intros Hinv Hfire. destruct ev; unfold fire in Hfire.
  - (* PageChosen *)
    destruct (_ || _); [|discriminate]. injection Hfire as <-.
    unfold with_session. frame Hinv.
  - injection Hfire as <-. unfold with_session. frame Hinv.
  - (* FeatureCardClicked *)
    destruct (bool_decide _) eqn:Hk; [|discriminate]. injection Hfire as <-.
    apply bool_decide_eq_true in Hk.
    unfold with_session. frame Hinv. by intros ? [= <-].
  - destruct (bool_decide _) eqn:Hk; [|discriminate]. injection Hfire as <-.
    apply bool_decide_eq_true in Hk.
    unfold with_session. frame Hinv. by intros ? [= <-].
  - (* FileChosen *)
    injection Hfire as <-. unfold with_state.
    pose proof (upload_invariant _ _ _ Hinv
                  (handleVideoUpload_effect e (session sys, world sys))) as H.
    by destruct (handleVideoUpload e (session sys, world sys)).
  - injection Hfire as <-. unfold with_state.
    pose proof (upload_invariant _ _ _ Hinv
                  (handleDrop_effect e (session sys, world sys))) as H.
    by destruct (handleDrop e (session sys, world sys)).
  - injection Hfire as <-. unfold with_session. frame Hinv.
  - (* ResetClicked *)
    injection Hfire as <-. unfold with_state. simpl.
    split; simpl; try done; try apply Hinv.
    by left.
  - injection Hfire as <-. unfold with_session. frame Hinv.
  - (* ApiChosen *)
    destruct (_ || _) eqn:Hv; [|discriminate]. injection Hfire as <-.
    unfold with_session. frame Hinv.
    apply orb_true_iff in Hv as [Hv|Hv]; apply bool_decide_eq_true in Hv; auto.
  - injection Hfire as <-. unfold with_session. frame Hinv. done.
  - (* AnalyzeClicked *)
    destruct (analyze_disabled (session sys)) eqn:Hdis; [discriminate|].
    apply enabled_inv in Hdis as (file & key & Hf & Hk & Htr & Hna).
    destruct (inv_task _ _ Hinv key Hk) as [t Ht].
    destruct (analyzeVideo_start_valid (session sys) (world sys) file key t
                Hf Hk Htr Ht (inv_api _ _ Hinv)) as (a & Hc & _ & Hstart).
    rewrite Hstart in Hfire. injection Hfire as <-.
    destruct (inv_single _ _ Hinv) as [[Hyes _]|[_ Hnone]]; [congruence|].
    rewrite Hnone. simpl.
    split; simpl; try done; try apply Hinv.
    + constructor; [|constructor].
      split; [by exists t|]. split; [exact Hc|]. by apply (inv_file _ _ Hinv).
    + left. eauto.
  - injection Hfire as <-. unfold with_session. frame Hinv.
  - (* CallSettled *)
    destruct (pending sys) as [|p rest] eqn:Hp; [discriminate|].
    destruct (inv_single _ _ Hinv) as [[Hyes [p' Hp']]|[_ Hnone]]; [|congruence].
    assert (rest = []) as -> by congruence.
    pose proof (inv_pending _ _ Hinv) as Hvalid. rewrite Hp in Hvalid.
    apply Forall_cons in Hvalid as [((t & Ht & Hpt) & Hc & Hfile) _].
    destruct (simulateAPICall_returns (pending_key p) t (pending_api p)
                (pending_file p) (pending_query p) Ht Hc) as (payload & Hret & Hshape).
    unfold analyzeVideo_settle in Hfire. rewrite Hpt, Hret in Hfire.
    injection Hfire as <-.
    split; simpl; try done; try apply Hinv.
    + by right.
    + intros r [= <-]. split; simpl; [by eexists|]. repeat split; try done.
      apply Hfile.
  - (* ExportClicked *)
    injection Hfire as <-. unfold exportResults.
    destruct (analysisResult (session sys)); simpl.
    + destruct sys as [s w pend]. frame Hinv. set_solver.
    + by destruct sys.
  - injection Hfire as <-. destruct sys as [s w pend]. frame Hinv.
Qed.

Lemma run_invariant (w0 : World) (evs : list Event) (sys sys' : System) :
  Invariant w0 sys -> run evs sys = Some sys' -> Invariant w0 sys'.
Proof.
  revert sys. induction evs as [|ev evs IH]; simpl; intros sys Hinv Hrun.
  - by injection Hrun as <-.
  - destruct (fire ev sys) as [sys1|] eqn:Hfire; [|discriminate].
    eauto using fire_invariant.
Qed.

Lemma reachable_invariant (w : World) (evs : list Event) (sys : System) :
  run evs (mounted w) = Some sys -> Invariant w sys.
Proof. apply run_invariant, mounted_invariant. Qed.

(** X2. Whatever the user does, the video held by the session has a type
    starting with [video/] and at most 100 MiB; the file and its preview
    URL are set together, and the preview URL is registered in the
    browser. *)
Theorem stored_video_passed_the_guards (w : World) (evs : list Event) (sys : System) :
  run evs (mounted w) = Some sys ->
  (forall f, videoFile (session sys) = Some f ->
             startsWith (js "video/") (type f) = true
             /\ size f <= 100 * 1024 * 1024)
  /\ (is_Some (videoFile (session sys)) <-> is_Some (videoPreview (session sys)))
  /\ (forall u, videoPreview (session sys) = Some u -> u ∈ objectURLs (world sys)).
Proof.
  intros H. apply reachable_invariant in H.
  split; [apply H|]. split; apply H.
Qed.

Lemma stored_video_passed_the_guards_witness :
  exists sys,
    run [FileDropped (Some screenshot); FileChosen (Some (clip 1024));
         FileDropped (Some (clip 104857601))] (mounted world0) = Some sys
    /\ videoFile (session sys) = Some (clip 1024)
    /\ size (clip 1024) <= 100 * 1024 * 1024.
Proof.
  eexists. split; [vm_compute; reflexivity|]. split; [reflexivity|].
  eapply (stored_video_passed_the_guards world0
            [FileDropped (Some screenshot); FileChosen (Some (clip 1024));
             FileDropped (Some (clip 104857601))]); reflexivity.
Defined.

(** X3. Whatever the user does, no object URL is ever released: the log of
    revocations is the one the page was mounted with, and every URL
    registered then is still registered. *)
Theorem page_never_releases_urls (w : World) (evs : list Event) (sys : System) :
  run evs (mounted w) = Some sys ->
  revocations (world sys) = revocations w
  /\ objectURLs w ⊆ objectURLs (world sys)
  /\ forall u, released u (world sys) = released u w.
Proof.
  intros H. apply reachable_invariant in H.
  pose proof (inv_revocations _ _ H) as Hr.
  split; [exact Hr|]. split; [apply H|].
  intros u. unfold released. by rewrite Hr.
Qed.

(** X4. At most one provider call is in flight: [isAnalyzing] is set
    exactly while one run of [analyzeVideo] is suspended, and while it is
    set the analyze button does not fire. *)
Theorem one_call_in_flight (w : World) (evs : list Event) (sys : System) :
  run evs (mounted w) = Some sys ->
  ((isAnalyzing (session sys) = true /\ exists p, pending sys = [p])
   \/ (isAnalyzing (session sys) = false /\ pending sys = []))
  /\ (isAnalyzing (session sys) = true -> fire AnalyzeClicked sys = None).
Proof.
  intros H. apply reachable_invariant in H.
  split; [apply H|].
  intros Ha. unfold fire, analyze_disabled. rewrite Ha.
  by rewrite !orb_true_r.
Qed.

(** X5. From the page the dispatch cannot fail: every suspended call will
    return a payload, an enabled analyze button issues exactly one call, to
    a provider of [API_CONFIG], and the only errors the session ever shows
    are the four upload messages. *)
Theorem page_dispatch_never_fails (w : World) (evs : list Event) (sys : System) :
  run evs (mounted w) = Some sys ->
  (forall m, error (session sys) = Some m -> m ∈ upload_messages)
  /\ (forall p, p ∈ pending sys ->
        exists payload,
          simulateAPICall (pending_task p) (pending_api p) (pending_file p)
            (pending_query p) = Returns payload)
  /\ (analyze_disabled (session sys) = false ->
      exists sys' p,
        fire AnalyzeClicked sys = Some sys'
        /\ pending sys' = [p]
        /\ is_Some (API_CONFIG !! pending_api p)
        /\ invoked (world sys') = invoked (world sys) ++ [pending_api p]
        /\ error (session sys') = None).
Proof.
  intros H. apply reachable_invariant in H.
  split; [apply H|]. split.
  - intros p Hp.
    pose proof (inv_pending _ _ H) as Hv. rewrite Forall_forall in Hv.
    destruct (Hv p Hp) as ((t & Ht & Hpt) & Hc & _).
    destruct (simulateAPICall_returns _ t _ (pending_file p) (pending_query p) Ht Hc)
      as (payload & Hret & _).
    exists payload. by rewrite Hpt.
  - intros Hen. unfold fire. rewrite Hen.
    apply enabled_inv in Hen as (file & key & Hf & Hk & Htr & Hna).
    destruct (inv_task _ _ H key Hk) as [t Ht].
    destruct (analyzeVideo_start_valid (session sys) (world sys) file key t
                Hf Hk Htr Ht (inv_api _ _ H)) as (a & Hc & _ & Hstart).
    rewrite Hstart.
    destruct (inv_single _ _ H) as [[Hyes _]|[_ Hnone]]; [congruence|].
    rewrite Hnone. do 2 eexists. split; [reflexivity|]. simpl.
    repeat split. exact Hc.
Qed.

(** X6. Every result the page stores names a task of the catalog and a
    provider of [API_CONFIG], whose display name the results header shows;
    its video is at most 100 MiB, and its payload has the shape of its
    task. *)
Theorem stored_result_fits_task (w : World) (evs : list Event) (sys : System)
    (r : AnalysisResult) :
  run evs (mounted w) = Some sys ->
  analysisResult (session sys) = Some r ->
  is_Some (ANALYSIS_TASKS !! task r)
  /\ videoSize r <= 100 * 1024 * 1024
  /\ shape_matches (task r) (data r)
  /\ exists config, API_CONFIG !! api r = Some config
                    /\ providerLabel r = api_name config.
Proof.
  intros H Hr. apply reachable_invariant in H.
  destruct (inv_result _ _ H r Hr) as (Ht & [c Hc] & Hsz & Hsh).
  repeat split; try done.
  exists c. split; [done|]. unfold providerLabel. rewrite Hc.
  by rewrite (API_CONFIG_named _ _ Hc).
Qed.

(** X7. Resetting while an analysis runs does not cancel it: when the
    call settles, its result is stored, for the task and the video the run
    was started with, although the session then has no video and no task. *)
Theorem reset_does_not_cancel (w : World) (evs : list Event) (sys : System) :
  run evs (mounted w) = Some sys ->
  isAnalyzing (session sys) = true ->
  exists p sys' r,
    pending sys = [p]
    /\ run [ResetClicked; CallSettled] sys = Some sys'
    /\ videoFile (session sys') = None
    /\ selectedTask (session sys') = None
    /\ analysisResult (session sys') = Some r
    /\ task r = pending_key p
    /\ videoName r = name (pending_file p)
    /\ pending sys' = [].
Proof.
  intros H Ha. apply reachable_invariant in H.
  destruct (inv_single _ _ H) as [[_ [p Hp]]|[Hno _]]; [|congruence].
  pose proof (inv_pending _ _ H) as Hv. rewrite Hp in Hv.
  apply Forall_cons in Hv as [((t & Ht & Hpt) & Hc & _) _].
  destruct (simulateAPICall_returns _ t _ (pending_file p) (pending_query p) Ht Hc)
    as (payload & Hret & _).
  exists p. destruct sys as [s w1 pend]. simpl in *. subst pend.
  unfold with_state. simpl. unfold analyzeVideo_settle. rewrite Hpt, Hret.
  do 2 eexists. split; [reflexivity|]. split; [reflexivity|]. simpl.
  repeat split.
Qed.

Lemma analyze_disabled_ext (s s' : Session) :
  (is_Some (videoFile s') <-> is_Some (videoFile s)) ->
  selectedTask s' = selectedTask s -> isAnalyzing s' = isAnalyzing s ->
  customQuery s' = customQuery s ->
  analyze_disabled s' = analyze_disabled s.
Proof.
  intros Hf Ht Ha Hq. unfold analyze_disabled.
  by rewrite (bool_decide_ext _ _ Hf), Ht, Ha, Hq.
Qed.

(** X8. An accepted upload does not reset [videoDuration]: an analysis
    started on the new video before its metadata has loaded stores the new
    file's name and size with the previous video's duration. *)
Theorem new_video_keeps_old_duration (w : World) (evs : list Event) (sys : System)
    (file : File) (d : Q) :
  run evs (mounted w) = Some sys ->
  analyze_disabled (session sys) = false ->
  videoDuration (session sys) = Some d ->
  validate file = Ok ->
  exists sys' r,
    run [FileDropped (Some file); AnalyzeClicked; CallSettled] sys = Some sys'
    /\ analysisResult (session sys') = Some r
    /\ videoName r = name file
    /\ videoSize r = size file
    /\ resultDuration r = Some d.
Proof.
  intros Hrun Hen Hd Hok.
  destruct (fire (FileDropped (Some file)) sys) as [sys1|] eqn:H1; [|discriminate].
  pose proof (fire_invariant _ _ _ _ (reachable_invariant _ _ _ Hrun) H1) as Hinv1.
  assert (session sys1 = fst (storeVideo file (session sys, world sys))
          /\ pending sys1 = pending sys) as [Hs1 Hp1].
  { unfold fire, with_state, handleDrop in H1.
    rewrite validate_eq_validateDrop, Hok in H1.
    destruct (storeVideo file (session sys, world sys)).
    by injection H1 as <-. }
  assert (analyze_disabled (session sys1) = false) as Hen1.
  { rewrite <- Hen. apply analyze_disabled_ext; rewrite Hs1; simpl; try done.
    apply enabled_inv in Hen as (f0 & _ & Hf0 & _). rewrite Hf0.
    split; by eexists. }
  pose proof Hen1 as Hen1'.
  apply enabled_inv in Hen1' as (f1 & key & Hf1 & Hk & Htr & Hna).
  assert (f1 = file) as -> by (rewrite Hs1 in Hf1; simpl in Hf1; congruence).
  destruct (inv_task _ _ Hinv1 key Hk) as [t Ht].
  destruct (analyzeVideo_start_valid (session sys1) (world sys1) file key t
              Hf1 Hk Htr Ht (inv_api _ _ Hinv1)) as (a & Hc & _ & Hstart).
  destruct (simulateAPICall_returns key t a file (customQuery (session sys1)) Ht Hc)
    as (payload & Hret & _).
  destruct (inv_single _ _ Hinv1) as [[Hyes _]|[_ Hnone]]; [congruence|].
  assert (videoDuration (session sys1) = Some d) as Hd1 by (by rewrite Hs1).
  unfold run. rewrite H1. unfold fire at 1. rewrite Hen1, Hstart, Hnone. simpl.
  unfold analyzeVideo_settle. simpl. rewrite Hret, Hd1.
  do 2 eexists. split; [reflexivity|]. simpl. repeat split.
Qed.


(** ** Number formatting *)

Lemma two_digits (k : N) :
  k < 100 ->
  padStart 2 48 (numberToString k) = [48 + k / 10; 48 + k mod 10].
Proof.
  intros Hk.
  assert (forallb (λ k, bool_decide (padStart 2 48 (numberToString k)
                                     = [48 + k / 10; 48 + k mod 10]))
            (N.of_nat <$> seq 0 100) = true) as Hall by (vm_compute; reflexivity).
  rewrite forallb_forall in Hall.
  eapply bool_decide_eq_true_1, Hall, list_elem_of_In, list_elem_of_fmap.
  exists (N.to_nat k). split; [lia|].
  apply elem_of_seq. lia.
Qed.

Lemma one_digit (k : N) :
  k < 10 -> padStart 1 48 (numberToString k) = [48 + k].
Proof.
  intros Hk.
  assert (forallb (λ k, bool_decide (padStart 1 48 (numberToString k) = [48 + k]))
            (N.of_nat <$> seq 0 10) = true) as Hall by (vm_compute; reflexivity).
  rewrite forallb_forall in Hall.
  eapply bool_decide_eq_true_1, Hall, list_elem_of_In, list_elem_of_fmap.
  exists (N.to_nat k). split; [lia|].
  apply elem_of_seq. lia.
Qed.

(** The integer [toFixed] prints is the nearest one, ties upwards. *)
Lemma nearest_bounds (scale num den : N) :
  0 < den ->
  let n := (2 * scale * num + den) / (2 * den) in
  2 * den * n <= 2 * scale * num + den < 2 * den * (n + 1).
Proof.
  intros Hden n. subst n.
  assert (2 * den ≠ 0) as Hne by lia.
  pose proof (N.Div0.mul_div_le (2 * scale * num + den) (2 * den)) as Hle.
  pose proof (N.mul_succ_div_gt (2 * scale * num + den) (2 * den) Hne) as Hgt.
  rewrite <- N.add_1_r in Hgt. split; [exact Hle | exact Hgt].
Qed.

(** X10. [formatFileSize] prints sizes below 1 KiB in bytes; from 1 KiB it
    prints KB, and from 1 MiB MB, with one decimal, the nearest tenth of the
    true value.  The KB figure runs from 1.0 to 1024.0, and a size within
    the upload limit prints at most 100.0 MB. *)
Theorem formatFileSize_rounds_to_tenth (bytes : N) :
  (bytes < 1024 -> formatFileSize bytes = numberToString bytes ++ js " B")
  /\ (1024 <= bytes < 1024 * 1024 ->
      exists t,
        formatFileSize bytes
        = numberToString (t / 10) ++ js "." ++ [48 + t mod 10] ++ js " KB"
        /\ 1024 * t <= 10 * bytes + 512 < 1024 * (t + 1)
        /\ 10 <= t <= 10240)
  /\ (1024 * 1024 <= bytes ->
      exists t,
        formatFileSize bytes
        = numberToString (t / 10) ++ js "." ++ [48 + t mod 10] ++ js " MB"
        /\ 1048576 * t <= 10 * bytes + 524288 < 1048576 * (t + 1)
        /\ 10 <= t
        /\ (bytes <= 100 * 1024 * 1024 -> t <= 1000)).
Proof.
  unfold formatFileSize. split; [|split].
  - intros H. apply N.ltb_lt in H. by rewrite H.
  - intros [Hlo Hhi].
    apply N.ltb_ge in Hlo. apply N.ltb_lt in Hhi. rewrite Hlo, Hhi.
    apply N.ltb_ge in Hlo. apply N.ltb_lt in Hhi.
    unfold toFixed. simpl N.of_nat. change (10 ^ 1) with 10.
    set (t := (2 * 10 * bytes + 1024) / (2 * 1024)).
    pose proof (nearest_bounds 10 bytes 1024 ltac:(lia)) as Hb. simpl in Hb.
    fold t in Hb.
    exists t. rewrite one_digit by (apply N.mod_lt; lia).
    split; [by rewrite <- !app_assoc|]. lia.
  - intros Hlo.
    assert ((bytes <? 1024) = false) as -> by (apply N.ltb_ge; lia).
    apply N.ltb_ge in Hlo. rewrite Hlo. apply N.ltb_ge in Hlo.
    unfold toFixed. simpl N.of_nat. change (10 ^ 1) with 10.
    set (t := (2 * 10 * bytes + 1024 * 1024) / (2 * (1024 * 1024))).
    pose proof (nearest_bounds 10 bytes (1024 * 1024) ltac:(lia)) as Hb. simpl in Hb.
    fold t in Hb.
    exists t. rewrite one_digit by (apply N.mod_lt; lia).
    split; [by rewrite <- !app_assoc|]. lia.
Qed.

Example formatFileSize_examples :
  formatFileSize 1023 = js "1023 B"
  /\ formatFileSize 1536 = js "1.5 KB"
  /\ formatFileSize 1048575 = js "1024.0 KB"
  /\ formatFileSize 104857600 = js "100.0 MB".
Proof. vm_compute. done. Qed.

(** X11. [formatDuration] shows [--:--] for a missing duration and for
    zero; a positive whole number of seconds prints as minutes, a colon, and
    the remaining seconds on exactly two digits. *)
Theorem formatDuration_minutes_seconds (n : N) :
  formatDuration None = js "--:--"
  /\ formatDuration (Some 0) = js "--:--"
  /\ (0 < n ->
      formatDuration (Some n)
      = numberToString (n / 60) ++ js ":"
        ++ [48 + (n mod 60) / 10; 48 + (n mod 60) mod 10]).
Proof.
  split; [reflexivity|]. split; [reflexivity|].
  intros Hn. destruct n as [|p]; [lia|].
  unfold formatDuration. rewrite two_digits; [done|].
  pose proof (N.mod_lt (N.pos p) 60). lia.
Qed.

(** ** The two upload paths *)

(** X1. The file dialog and the drop zone judge a file alike.  A file
    that passes is stored by both with the same resulting state.  A file
    that fails is rejected by both for the same reason, each path setting
    its own wording of the message and changing nothing else.  Without a
    file, the dialog path does nothing and the drop path reports an invalid
    file. *)
Theorem upload_paths_agree (file : File) (st : Session * World) :
  validateDrop file = validate file
  /\ (validate file = Ok ->
      handleVideoUpload (Some file) st = storeVideo file st
      /\ handleDrop (Some file) st = storeVideo file st)
  /\ (forall r, validate file = Rejected r ->
        handleVideoUpload (Some file) st
        = (setError (Some (upload_message r)) (fst st), snd st)
        /\ handleDrop (Some file) st
           = (setError (Some (drop_message r)) (fst st), snd st)
        /\ upload_message r ≠ drop_message r)
  /\ handleVideoUpload None st = st
  /\ handleDrop None st
     = (setError (Some (js "Please drop a valid video file")) (fst st), snd st).
Proof.
  split; [apply validate_eq_validateDrop|].
  unfold handleDrop, handleVideoUpload. rewrite validate_eq_validateDrop.
  split; [by intros ->|]. split; [|done].
  intros r ->. repeat split. destruct r; vm_compute; discriminate.
Qed.

(** ** The second build *)


(** X12. In the second build the two upload paths agree on video files
    only.  A file of another type is ignored by the drop zone, without an
    error, while the file dialog path stores it when it is within the size
    limit, and reports the size when it is not. *)
Theorem build2_upload_paths_differ (file : File) (st : Build2.State * World) :
  (startsWith (js "video/") (type file) = true ->
   Build2.handleDrop (Some file) st = Build2.handleVideoUpload (Some file) st)
  /\ (startsWith (js "video/") (type file) = false ->
      Build2.handleDrop (Some file) st = st
      /\ (size file <= 100 * 1024 * 1024 ->
          Build2.handleVideoUpload (Some file) st = Build2.storeVideo file st
          /\ Build2.videoFile (Build2.session (fst (Build2.storeVideo file st)))
             = Some file)
      /\ (100 * 1024 * 1024 < size file ->
          Build2.error (Build2.session (fst (Build2.handleVideoUpload (Some file) st)))
          = Some (js "File size exceeds 100MB limit"))).
Proof.
  unfold Build2.handleDrop, Build2.handleVideoUpload. split.
  - by intros ->.
  - intros ->. split; [done|]. split.
    + intros Hsz. apply N.ltb_ge in Hsz. rewrite Hsz. split; [done|].
      unfold Build2.storeVideo. by destruct (createObjectURL (snd st)).
    + intros Hsz. apply N.ltb_lt in Hsz. by rewrite Hsz.
Qed.



(** ** The third build *)

Lemma zero_filled (k : N) :
  k < 100 ->
  (if k <? 10 then js "0" else []) ++ Build3.decimal k
  = [48 + k / 10; 48 + k mod 10].
Proof.
  intros Hk.
  assert (forallb (λ k, bool_decide
                          ((if k <? 10 then js "0" else []) ++ Build3.decimal k
                           = [48 + k / 10; 48 + k mod 10]))
            (N.of_nat <$> seq 0 100) = true) as Hall by (vm_compute; reflexivity).
  rewrite forallb_forall in Hall.
  eapply bool_decide_eq_true_1, Hall, list_elem_of_In, list_elem_of_fmap.
  exists (N.to_nat k). split; [lia|].
  apply elem_of_seq. lia.
Qed.

Lemma zero_filled_app (k : N) (rest : JsString) :
  k < 100 ->
  (if k <? 10 then js "0" else []) ++ Build3.decimal k ++ rest
  = [48 + k / 10; 48 + k mod 10] ++ rest.
Proof. intros Hk. by rewrite app_assoc, zero_filled. Qed.

(** X15. The size label of the third build is the [toFixed(2)] of the
    second: the size in MiB as the nearest hundredth, with two decimals; a
    file of at most 5242 bytes is labelled 0.00 MB. *)
Theorem megabytes_rounds_to_hundredth (bytes : N) :
  Build3.megabytes bytes = toFixed 2 bytes (1024 * 1024) ++ js " MB"
  /\ (exists h,
        Build3.megabytes bytes
        = numberToString (h / 100) ++ js "."
          ++ [48 + (h mod 100) / 10; 48 + (h mod 100) mod 10] ++ js " MB"
        /\ 1048576 * h <= 100 * bytes + 524288 < 1048576 * (h + 1))
  /\ (bytes <= 5242 -> Build3.megabytes bytes = js "0.00 MB").
Proof.
  assert (forall h, h mod 100 < 100) as Hmod by (intros; apply N.mod_lt; lia).
  pose proof (nearest_bounds 100 bytes (1024 * 1024) ltac:(lia)) as Hb. simpl in Hb.
  unfold Build3.megabytes, toFixed. simpl N.of_nat. change (10 ^ 2) with 100.
  change (2 * 100 * bytes + 1024 * 1024) with (200 * bytes + 1048576) in *.
  change (2 * (1024 * 1024)) with 2097152 in *.
  set (h := (200 * bytes + 1048576) / 2097152) in *.
  rewrite two_digits by apply Hmod.
  rewrite zero_filled_app by apply Hmod.
  split; [by rewrite <- !app_assoc|]. split.
  - exists h. split; [reflexivity|]. lia.
  - intros Hsmall. assert (h = 0) as -> by lia. reflexivity.
Qed.

(** X16. In the third build, whatever files are picked, dropped or removed,
    no object URL is released; the file held, if any, is of the video or
    the image family, whatever its size, and its record carries the file's
    own name and type, its size label, and a registered preview URL. *)
Theorem build3_upload_invariant (acts : list Build3.Action) (w : World) :
  let st := fold_left Build3.act acts (None, w) in
  revocations (snd st) = revocations w
  /\ objectURLs w ⊆ objectURLs (snd st)
  /\ forall u, fst st = Some u ->
       startsWith (js "video/") (type (Build3.up_file u))
       || startsWith (js "image/") (type (Build3.up_file u)) = true
       /\ Build3.up_name u = name (Build3.up_file u)
       /\ Build3.up_type u = type (Build3.up_file u)
       /\ Build3.up_size u = Build3.megabytes (size (Build3.up_file u))
       /\ Build3.preview u ∈ objectURLs (snd st).
Proof.
  set (P := λ (st : option Build3.UploadedFile * World),
    revocations (snd st) = revocations w
    /\ objectURLs w ⊆ objectURLs (snd st)
    /\ forall u, fst st = Some u ->
         startsWith (js "video/") (type (Build3.up_file u))
         || startsWith (js "image/") (type (Build3.up_file u)) = true
         /\ Build3.up_name u = name (Build3.up_file u)
         /\ Build3.up_type u = type (Build3.up_file u)
         /\ Build3.up_size u = Build3.megabytes (size (Build3.up_file u))
         /\ Build3.preview u ∈ objectURLs (snd st)).
  assert (forall file st, P st -> P (Build3.handleFile file st)) as Hfile.
  { intros file st (Hr & Hu & Hs). unfold Build3.handleFile.
    destruct (_ || _) eqn:Hty; [|done].
    split; [exact Hr|]. split; [simpl; etrans; [exact Hu | apply union_subseteq_r]|].
    intros u [= <-]. simpl. repeat split; [exact Hty|].
    apply elem_of_union_l, elem_of_singleton. reflexivity. }
  assert (forall a st, P st -> P (Build3.act st a)) as Hact.
  { intros [[file|]|[file|]|] st Hst; simpl; auto.
    destruct Hst as (Hr & Hu & _). by repeat split. }
  assert (forall st, P st -> P (fold_left Build3.act acts st)) as Hall.
  { induction acts as [|a acts IH]; simpl; auto. }
  apply Hall. by repeat split.
Qed.

Example build3_large_image_is_stored :
  let big := {| name := js "site.png"; type := js "image/png";
                size := 500 * 1024 * 1024 |} in
  exists u, fst (fold_left Build3.act
                   [Build3.FileDropped (Some (clip 1024)); Build3.RemoveClicked;
                    Build3.FilePicked (Some big)] (None, world0)) = Some u
            /\ Build3.up_size u = js "500.00 MB"
            /\ Build3.preview u = 1%nat.
Proof. vm_compute. by eexists. Qed.

(** X17. The simulated call of the first build returns exactly when
    [API_CONFIG[apiName]] is not [undefined] (the provider is an entry of
    [API_CONFIG], or a name inherited from [Object.prototype]) or the task
    is the custom query, which does not read the provider's name; otherwise
    it throws on reading [name], and without a task it throws on reading
    [id]. *)
Theorem simulateAPICall_returns_iff (t : Task) (a : JsString) (file : File)
    (query : JsString) :
  ((exists payload, simulateAPICall (Some t) a file query = Returns payload)
   <-> (is_Some (API_CONFIG !! a) \/ inherited a = true
        \/ id t = js "custom_query"))
  /\ (API_CONFIG !! a = None -> inherited a = false ->
      id t ≠ js "custom_query" ->
      simulateAPICall (Some t) a file query = Throws (TypeError_undefined "name"))
  /\ simulateAPICall None a file query = Throws (TypeError_undefined "id").
Proof.
  unfold simulateAPICall, name_at. simpl.
  destruct (API_CONFIG !! a) as [c|] eqn:Hc; simpl.
  - split; [|split; [done|done]].
    split; [intros _; left; by eexists|]. intros _.
    repeat (destruct (decide _)); by eexists.
  - destruct (inherited a); simpl.
    + split; [|split; [done|done]].
      split; [intros _; right; by left|]. intros _.
      repeat (destruct (decide _)); by eexists.
    + split; [|split; [|done]].
      * split.
        -- intros [payload H]. right. right.
           destruct (decide (id t = js "property_damage")); [discriminate|].
           destruct (decide (id t = js "custom_query")); [done|discriminate].
        -- intros [[? ?]|[?|Hq]]; [discriminate|discriminate|]. rewrite Hq.
           rewrite decide_False by (vm_compute; discriminate).
           rewrite decide_True by done. by eexists.
      * intros _ _ Hq.
        destruct (decide (id t = js "property_damage")); [done|].
        by rewrite decide_False.
Qed.

Example simulateAPICall_inherited_provider :
  exists findings moments confidence,
    simulateAPICall (ANALYSIS_TASKS !! js "vehicle_damage") (js "constructor")
      (clip 1024) []
    = Returns (GenericFindings
                 (js "Analysis complete using Object. Your video " ++ dquote
                    ++ js "roof.mp4" ++ dquote ++ js " has been processed.")
                 findings moments confidence).
Proof. vm_compute. by do 3 eexists. Qed.

Lemma simulateAPICall_returns_iff_witness :
  simulateAPICall (ANALYSIS_TASKS !! js "vehicle_damage") (js "openai")
    (clip 1024) [] = Throws (TypeError_undefined "name")
  /\ exists payload,
       simulateAPICall (ANALYSIS_TASKS !! js "custom_query") (js "openai")
         (clip 1024) (js "is the roof damaged?") = Returns payload.
Proof.
  split.
  - apply (simulateAPICall_returns_iff
             {| id := js "vehicle_damage";
                task_name := js "Vehicle Damage Assessment";
                task_description := js "Detect dents, scratches, and damage on vehicles";
                task_color := js "#F59E0B"; primaryAPI := js "roboflow";
                fallbackAPI := js "gemini"; creditCost := 4;
                prompts := [js "gemini"] |}).
    + vm_compute. reflexivity.
    + vm_compute. reflexivity.
    + vm_compute. discriminate.
  - apply (simulateAPICall_returns_iff
             {| id := js "custom_query";
                task_name := js "Custom Video Query";
                task_description := js "Ask any question about your video content";
                task_color := js "#EC4899"; primaryAPI := js "gemini";
                fallbackAPI := js "twelveLabs"; creditCost := 3;
                prompts := [] |}).
    right. right. reflexivity.
Defined.



(** ** Witnesses *)

Lemma upload_paths_agree_witness :
  handleDrop (Some (clip 1024)) (initial, world0)
  = handleVideoUpload (Some (clip 1024)) (initial, world0)
  /\ error (fst (handleVideoUpload (Some screenshot) (initial, world0)))
     = Some (js "Please upload a valid video file (MP4, MOV, AVI, WebM)")
  /\ error (fst (handleDrop (Some screenshot) (initial, world0)))
     = Some (js "Please drop a valid video file").
Proof.
  split; [|split].
  - destruct (upload_paths_agree (clip 1024) (initial, world0))
      as (_ & Hok & _).
    destruct Hok as [Hu Hd]; [reflexivity|]. by rewrite Hu, Hd.
  - destruct (upload_paths_agree screenshot (initial, world0))
      as (_ & _ & Hrej & _).
    destruct (Hrej WrongType) as (Hu & _ & _); [reflexivity|]. by rewrite Hu.
  - destruct (upload_paths_agree screenshot (initial, world0))
      as (_ & _ & Hrej & _).
    destruct (Hrej WrongType) as (_ & Hd & _); [reflexivity|]. by rewrite Hd.
Defined.

Lemma page_never_releases_urls_witness :
  exists sys,
    run (settled_trace ++ [ExportClicked; ResetClicked]) (mounted world0) = Some sys
    /\ revocations (world sys) = []
    /\ released 0 (world sys) = 0%nat.
Proof.
  eexists. split; [vm_compute; reflexivity|].
  split;
    eapply (page_never_releases_urls world0
              (settled_trace ++ [ExportClicked; ResetClicked]));
    vm_compute; reflexivity.
Defined.

Lemma one_call_in_flight_witness :
  exists sys,
    run started_trace (mounted world0) = Some sys
    /\ fire AnalyzeClicked sys = None.
Proof.
  eexists. split; [vm_compute; reflexivity|].
  eapply (one_call_in_flight world0 started_trace).
  - vm_compute. reflexivity.
  - reflexivity.
Defined.

Lemma page_dispatch_never_fails_witness :
  exists sys,
    run started_trace (mounted world0) = Some sys
    /\ forall m, error (session sys) = Some m -> m ∈ upload_messages.
Proof.
  eexists. split; [vm_compute; reflexivity|].
  eapply (page_dispatch_never_fails world0 started_trace).
  vm_compute. reflexivity.
Defined.

Lemma stored_result_fits_task_witness :
  exists sys r,
    run settled_trace (mounted world0) = Some sys
    /\ analysisResult (session sys) = Some r
    /\ videoSize r <= 100 * 1024 * 1024.
Proof.
  do 2 eexists. split; [vm_compute; reflexivity|]. split; [reflexivity|].
  eapply (stored_result_fits_task world0 settled_trace).
  - vm_compute. reflexivity.
  - reflexivity.
Defined.

Lemma reset_does_not_cancel_witness :
  exists sys sys',
    run started_trace (mounted world0) = Some sys
    /\ run [ResetClicked; CallSettled] sys = Some sys'
    /\ videoFile (session sys') = None
    /\ is_Some (analysisResult (session sys')).
Proof.
  eexists.
  edestruct (reset_does_not_cancel world0 started_trace)
    as (p & sys' & r & _ & Hrun & Hf & _ & Hr & _).
  - vm_compute. reflexivity.
  - reflexivity.
  - exists sys'. split; [vm_compute; reflexivity|].
    split; [exact Hrun|]. split; [exact Hf|]. by exists r.
Defined.

Lemma new_video_keeps_old_duration_witness :
  exists sys sys' r,
    run [FileChosen (Some (clip 1024)); MetadataLoaded 90;
         TaskCardClicked (js "content_summary")] (mounted world0) = Some sys
    /\ run [FileDropped (Some (clip 2048)); AnalyzeClicked; CallSettled] sys
       = Some sys'
    /\ analysisResult (session sys') = Some r
    /\ videoSize r = 2048
    /\ resultDuration r = Some 90%Q.
Proof.
  eexists.
  edestruct (new_video_keeps_old_duration world0
               [FileChosen (Some (clip 1024)); MetadataLoaded 90;
                TaskCardClicked (js "content_summary")])
    with (file := clip 2048) (d := 90%Q)
    as (sys' & r & Hrun & Hr & _ & Hs & Hd).
  - vm_compute. reflexivity.
  - reflexivity.
  - reflexivity.
  - reflexivity.
  - exists sys', r. split; [vm_compute; reflexivity|].
    split; [exact Hrun|]. split; [exact Hr|]. split; [exact Hs | exact Hd].
Defined.


Lemma formatFileSize_rounds_to_tenth_witness :
  formatFileSize 512 = js "512 B"
  /\ exists t, formatFileSize 1536 = numberToString (t / 10) ++ js "."
                                     ++ [48 + t mod 10] ++ js " KB"
               /\ 10 <= t <= 10240.
Proof.
  split.
  - apply (formatFileSize_rounds_to_tenth 512). reflexivity.
  - destruct (formatFileSize_rounds_to_tenth 1536) as (_ & H & _).
    destruct H as (t & Ht & _ & Hb); [split; [discriminate | reflexivity]|].
    exists t. split; [exact Ht | exact Hb].
Defined.

Lemma formatDuration_minutes_seconds_witness :
  formatDuration (Some 75) = js "1:15".
Proof.
  apply (formatDuration_minutes_seconds 75). reflexivity.
Defined.

Lemma build2_upload_paths_differ_witness :
  Build2.handleDrop (Some screenshot) (build2_initial, world0)
  = (build2_initial, world0)
  /\ Build2.videoFile
       (Build2.session
          (fst (Build2.handleVideoUpload (Some screenshot) (build2_initial, world0))))
     = Some screenshot.
Proof.
  destruct (build2_upload_paths_differ screenshot (build2_initial, world0))
    as [_ H].
  destruct H as (Hd & Hs & _); [reflexivity|].
  split; [exact Hd|].
  destruct Hs as [Hu Hf]; [discriminate|].
  rewrite Hu. exact Hf.
Defined.



Lemma megabytes_rounds_to_hundredth_witness :
  Build3.megabytes 2048 = js "0.00 MB".
Proof.
  apply (megabytes_rounds_to_hundredth 2048). discriminate.
Defined.

(** ** Object URLs created by the page *)

(** An event either leaves the URL store alone or registers the next URL. *)
Lemma fire_urls (ev : Event) (sys sys' : System) :
  fire ev sys = Some sys' ->
  (objectURLs (world sys') = objectURLs (world sys)
   /\ nextURL (world sys') = nextURL (world sys))
  \/ (objectURLs (world sys') = {[ nextURL (world sys) ]} ∪ objectURLs (world sys)
      /\ nextURL (world sys') = S (nextURL (world sys))).
Proof.
  assert (forall st st', UploadEffect st st' ->
            (objectURLs (snd st') = objectURLs (snd st)
             /\ nextURL (snd st') = nextURL (snd st))
            \/ (objectURLs (snd st') = {[ nextURL (snd st) ]} ∪ objectURLs (snd st)
                /\ nextURL (snd st') = S (nextURL (snd st)))) as Hup.
  { intros st st' H. destruct H as [|m Hm|f Hf].
    - by left.
    - by left.
    - right. by destruct st. }
  intros Hfire. destruct ev; unfold fire in Hfire.
  - destruct (_ || _); [|discriminate]. injection Hfire as <-. by left.
  - injection Hfire as <-. by left.
  - destruct (bool_decide _); [|discriminate]. injection Hfire as <-. by left.
  - destruct (bool_decide _); [|discriminate]. injection Hfire as <-. by left.
  - injection Hfire as <-. unfold with_state.
    pose proof (Hup _ _ (handleVideoUpload_effect e (session sys, world sys))) as H.
    by destruct (handleVideoUpload e (session sys, world sys)).
  - injection Hfire as <-. unfold with_state.
    pose proof (Hup _ _ (handleDrop_effect e (session sys, world sys))) as H.
    by destruct (handleDrop e (session sys, world sys)).
  - injection Hfire as <-. by left.
  - injection Hfire as <-. by left.
  - injection Hfire as <-. by left.
  - destruct (_ || _); [|discriminate]. injection Hfire as <-. by left.
  - injection Hfire as <-. by left.
  - destruct (analyze_disabled _); [discriminate|].
    unfold analyzeVideo_start in Hfire.
    destruct (videoFile _); [|injection Hfire as <-; by left].
    destruct (selectedTask _) as [key|]; [|injection Hfire as <-; by left].
    destruct (truthy key); [|injection Hfire as <-; by left].
    unfold lookupTask in Hfire. simpl obind in Hfire.
    destruct (apiToUse _ _); injection Hfire as <-; by left.
  - injection Hfire as <-. by left.
  - destruct (pending sys) as [|p rest]; [discriminate|].
    unfold analyzeVideo_settle in Hfire.
    destruct (simulateAPICall _ _ _ _); injection Hfire as <-; by left.
  - injection Hfire as <-. unfold exportResults.
    destruct (analysisResult _); [by right | by left].
  - injection Hfire as <-. by left.
Qed.

(** X19. Every object URL the page creates, for a preview or for an
    export, is still registered after any further events: the URLs numbered
    from the mount onwards are all in the browser's store. *)
Theorem created_urls_stay_registered (w : World) (evs : list Event) (sys : System) :
  run evs (mounted w) = Some sys ->
  (nextURL w <= nextURL (world sys))%nat
  /\ forall u : nat,
       (nextURL w <= u < nextURL (world sys))%nat -> u ∈ objectURLs (world sys).
Proof.
  assert (forall evs sys0 sys,
            run evs sys0 = Some sys ->
            (nextURL (world sys0) <= nextURL (world sys))%nat
            /\ forall u : nat,
                 (u ∈ objectURLs (world sys0)
                  \/ (nextURL (world sys0) <= u < nextURL (world sys))%nat) ->
                 u ∈ objectURLs (world sys)) as Hgen.
  { clear. induction evs as [|ev evs IH]; simpl; intros sys0 sys Hrun.
    - injection Hrun as <-. split; [lia|]. intros u [?|?]; [done | lia].
    - destruct (fire ev sys0) as [sys1|] eqn:Hfire; [|discriminate].
      destruct (IH _ _ Hrun) as [Hle Hin].
      destruct (fire_urls _ _ _ Hfire) as [[Hu Hn]|[Hu Hn]].
      + rewrite Hu, Hn in *. split; [done|]. intros u Hcase. by apply Hin.
      + rewrite Hu, Hn in *. split; [lia|]. intros u [Hold|Hnew].
        * apply Hin. left. by apply elem_of_union_r.
        * destruct (decide (u = nextURL (world sys0))) as [->|Hne].
          -- apply Hin. left. by apply elem_of_union_l, elem_of_singleton.
          -- apply Hin. right. lia. }
  intros Hrun. destruct (Hgen _ _ _ Hrun) as [Hle Hin].
  split; [exact Hle|]. intros u Hu. apply Hin. by right.
Qed.

Lemma created_urls_stay_registered_witness :
  exists sys,
    run (settled_trace ++ [ExportClicked; ResetClicked;
                           FileDropped (Some (clip 2048))]) (mounted world0)
    = Some sys
    /\ nextURL (world sys) = 3%nat
    /\ 0%nat ∈ objectURLs (world sys).
Proof.
  eexists. split; [vm_compute; reflexivity|]. split; [reflexivity|].
  eapply (created_urls_stay_registered world0
            (settled_trace ++ [ExportClicked; ResetClicked;
                               FileDropped (Some (clip 2048))])).
  - vm_compute. reflexivity.
  - split; [apply Nat.le_refl | repeat constructor].
Defined.

Lemma build3_upload_invariant_witness :
  let big := {| name := js "site.png"; type := js "image/png";
                size := 500 * 1024 * 1024 |} in
  let st := fold_left Build3.act
              [Build3.FileDropped (Some (clip 1024)); Build3.RemoveClicked;
               Build3.FilePicked (Some big)] (None, world0) in
  revocations (snd st) = []
  /\ exists u, fst st = Some u /\ Build3.up_name u = js "site.png".
Proof.
  intros big st.
  destruct (build3_upload_invariant
              [Build3.FileDropped (Some (clip 1024)); Build3.RemoveClicked;
               Build3.FilePicked (Some big)] world0) as (Hr & _ & Hu).
  split; [exact Hr|].
  eexists. split; [reflexivity|].
  eapply Hu. reflexivity.
Defined.
